(** * Mouse reporting of the terminal emulator: gui/mouse.go

  A shallow embedding of the method [GUI.mouseButtonCallback] and of the library
  routines it calls ([math.Floor], the float64-to-int conversion,
  [fmt.Sprintf] with the verb [%c], [utf8.EncodeRune]), followed by the
  properties of the emitted xterm mouse packets.

  Conventions.  Go's [int] is the 64-bit integer of the usual targets;
  [rune] is [int32]; [byte] is [uint8].  Integers are carried as [Z] with
  the wrap-around of each conversion written out.  A [float64] is a
  binary64 number in the representation of [SpecFloat]. *)

From Stdlib Require Import ZArith List Bool String Lia.
From Stdlib Require Import Floats.SpecFloat.
From Stdlib Require Import QArith Qround.
Import ListNotations.
Local Open Scope Z_scope.

(** ** Go's fixed-width integers *)

Module GoInt.

(** Reduction of a mathematical integer to a signed [w]-bit value. *)
Definition wrap_signed (w : Z) (z : Z) : Z :=
  (z + 2 ^ (w - 1)) mod 2 ^ w - 2 ^ (w - 1).

Definition int (z : Z) : Z := wrap_signed 64 z.
Definition rune (z : Z) : Z := wrap_signed 32 z.
Definition byte (z : Z) : Z := z mod 256.
Definition uint32 (z : Z) : Z := z mod 2 ^ 32.
Definition uint64 (z : Z) : Z := z mod 2 ^ 64.

Definition MinInt64 : Z := - 2 ^ 63.
Definition MaxInt64 : Z := 2 ^ 63 - 1.

End GoInt.

(** ** unicode/utf8 and the [%c] verb of fmt *)

Module Utf8.

Definition rune1Max : Z := 0x7F.
Definition rune2Max : Z := 0x7FF.
Definition rune3Max : Z := 0xFFFF.
Definition MaxRune : Z := 0x10FFFF.
Definition RuneError : Z := 0xFFFD.
Definition surrogateMin : Z := 0xD800.
Definition surrogateMax : Z := 0xDFFF.

Definition t2 : Z := 0xC0.
Definition t3 : Z := 0xE0.
Definition t4 : Z := 0xF0.
Definition tx : Z := 0x80.
Definition maskx : Z := 0x3F.

Definition enc3 (r : Z) : list Z :=
  [ Z.lor t3 (GoInt.byte (Z.shiftr r 12));
    Z.lor tx (Z.land (GoInt.byte (Z.shiftr r 6)) maskx);
    Z.lor tx (Z.land (GoInt.byte r) maskx) ].

(** [utf8.EncodeRune]: the bytes written for the rune [r] (an [int32]).
    The switch is on [i := uint32(r)]; the third case replaces [r] by
    [RuneError] and falls through to the three-byte form. *)
Definition EncodeRune (r : Z) : list Z :=
  let i := GoInt.uint32 r in
  if i <=? rune1Max then [ GoInt.byte r ]
  else if i <=? rune2Max then
    [ Z.lor t2 (GoInt.byte (Z.shiftr r 6));
      Z.lor tx (Z.land (GoInt.byte r) maskx) ]
  else if (MaxRune <? i) || ((surrogateMin <=? i) && (i <=? surrogateMax))
    then enc3 RuneError
  else if i <=? rune3Max then enc3 r
  else
    [ Z.lor t4 (GoInt.byte (Z.shiftr r 18));
      Z.lor tx (Z.land (GoInt.byte (Z.shiftr r 12)) maskx);
      Z.lor tx (Z.land (GoInt.byte (Z.shiftr r 6)) maskx);
      Z.lor tx (Z.land (GoInt.byte r) maskx) ].

(** [utf8.ValidRune]: a code point that is neither out of range nor a
    surrogate half. *)
Definition ValidRune (r : Z) : bool :=
  if (0 <=? r) && (r <? surrogateMin) then true
  else if (surrogateMax <? r) && (r <=? MaxRune) then true
  else false.

End Utf8.

Module Fmt.

(** The method [fmtC] of fmt, reached from [Sprintf] for an [int32] operand
    through [fmtInteger (uint64 v)]: a value above [MaxRune] (every negative
    rune is one, seen as [uint64]) prints as [RuneError]. *)
Definition fmtC (v : Z) : list Z :=
  let c := GoInt.uint64 v in
  let r := if Utf8.MaxRune <? c then Utf8.RuneError else GoInt.rune c in
  Utf8.EncodeRune r.

(** The bytes of [fmt.Sprintf("\x1b[M%c%c%c", b, x, y)]. *)
Definition Sprintf_packet (b x y : Z) : list Z :=
  [0x1B; 0x5B; 0x4D] ++ fmtC b ++ fmtC x ++ fmtC y.

End Fmt.

(** ** float64 *)

Module Float64.

Definition prec : Z := 53.
Definition emax : Z := 1024.

Definition float64 : Type := spec_float.

(** The values a float64 variable can hold: canonical mantissa and exponent. *)
Definition valid (f : float64) : bool := valid_binary prec emax f.

(** The operator [/] on float64 (round to nearest, ties to even). *)
Definition div (x y : float64) : float64 := SFdiv prec emax x y.

(** The conversion [float64(n)] of an integer. *)
Definition of_int (n : Z) : float64 := binary_normalize prec emax n 0 false.

(** [math.Floor]: the greatest integral value not above [x], as a float64;
    [Floor] of a zero, of an infinity and of NaN is the argument itself.  With a
    non-negative exponent the value is integral already. *)
Definition Floor (x : float64) : float64 :=
  match x with
  | S754_finite s m e =>
      if 0 <=? e then x
      else binary_normalize prec emax (cond_Zopp s (Zpos m) / 2 ^ (- e)) 0 s
  | _ => x
  end.

(** The integer part of a finite float64, truncated toward zero. *)
Definition trunc (s : bool) (m : positive) (e : Z) : Z :=
  cond_Zopp s (if 0 <=? e then Zpos m * 2 ^ e else Zpos m / 2 ^ (- e)).

Section Conversion.

(** The conversion [int(x)] of a float64.  The language leaves the result
    open when the truncated value does not fit in [int] (also for NaN and
    the infinities): the target decides.  [unspecified] is that choice. *)
Variable unspecified : float64 -> Z.

Definition to_int (x : float64) : Z :=
  match x with
  | S754_zero _ => 0
  | S754_finite s m e =>
      let t := trunc s m e in
      if (GoInt.MinInt64 <=? t) && (t <=? GoInt.MaxInt64) then t
      else GoInt.int (unspecified x)
  | _ => GoInt.int (unspecified x)
  end.

End Conversion.

(** amd64: CVTTSD2SQ answers the "integer indefinite" value. *)
Definition amd64 : float64 -> Z := fun _ => GoInt.MinInt64.

(** arm64: FCVTZS saturates, and NaN converts to 0. *)
Definition arm64 (x : float64) : Z :=
  match x with
  | S754_nan => 0
  | S754_infinity s | S754_finite s _ _ =>
      if s then GoInt.MinInt64 else GoInt.MaxInt64
  | S754_zero _ => 0
  end.

(** The rational number a finite float64 stands for (0 for the others). *)
Definition to_Q (x : float64) : Q :=
  match x with
  | S754_finite s m e =>
      if 0 <=? e then inject_Z (cond_Zopp s (Zpos m) * 2 ^ e)
      else Qmake (cond_Zopp s (Zpos m)) (Z.to_pos (2 ^ (- e)))
  | _ => 0%Q
  end.

Definition is_finite (x : float64) : bool :=
  match x with
  | S754_zero _ | S754_finite _ _ _ => true
  | _ => false
  end.

(** A pointer position on or right of (below) the origin: a finite
    number that is zero or positive. *)
Definition nonneg (x : float64) : bool :=
  match x with
  | S754_zero _ | S754_finite false _ _ => true
  | _ => false
  end.

(** A finite number below zero. *)
Definition negative (x : float64) : bool :=
  match x with
  | S754_finite true _ _ => true
  | _ => false
  end.

(** A finite number above zero: a cell width or height. *)
Definition positive (x : float64) : bool :=
  match x with
  | S754_finite false _ _ => true
  | _ => false
  end.

Definition is_zero (x : float64) : bool :=
  match x with
  | S754_zero _ => true
  | _ => false
  end.

(** The shape of a rounded result: never NaN, the sign as given, and a
    mantissa below [2 ^ 53]. *)
Definition rounded (s : bool) (x : float64) : Prop :=
  match x with
  | S754_zero s' | S754_infinity s' => s' = s
  | S754_finite s' m _ => s' = s /\ Zpos m < 2 ^ 53
  | S754_nan => False
  end.

(** The mantissa of a number fits in 53 bits. *)
Definition small_mantissa (x : float64) : Prop :=
  match x with
  | S754_finite _ m _ => Zpos m < 2 ^ 53
  | _ => True
  end.

End Float64.

(** ** The collaborators of the callback *)

(** The constants of go-gl/glfw v3.2 the callback compares against;
    [MouseButton], [Action] and [ModifierKey] are [int] types there. *)
Module Glfw.

Definition MouseButton1 : Z := 0.
Definition MouseButton2 : Z := 1.
Definition MouseButton3 : Z := 2.
Definition MouseButton4 : Z := 3.
Definition MouseButton5 : Z := 4.
Definition MouseButton6 : Z := 5.
Definition MouseButton7 : Z := 6.
Definition MouseButton8 : Z := 7.

Definition Release : Z := 0.
Definition Press : Z := 1.
Definition Repeat : Z := 2.

Definition ModShift : Z := 1.
Definition ModControl : Z := 2.
Definition ModAlt : Z := 4.
Definition ModSuper : Z := 8.

(** A window, as far as the callback reads it. *)
Record Window : Type := { GetCursorPos : Float64.float64 * Float64.float64 }.

End Glfw.

Module Terminal.

(** Modelled from the spec: the type [terminal.MouseMode], declared in the
    terminal package.  The six tracking modes are those of the data model;
    [MouseModeOther] stands for any further value of the underlying integer
    type, which the callback's [default] branch receives. *)
Inductive MouseMode : Type :=
| MouseModeNone
| MouseModeX10
| MouseModeVT200
| MouseModeVT200Highlight
| MouseModeButtonEvent
| MouseModeAnyEvent
| MouseModeOther (n : Z).

End Terminal.

(** ** gui/mouse.go *)

Module Gui.

Import Terminal Glfw.

(** What the callback reads and writes through its receiver:
    the mode of [gui.terminal], the cell metrics of [gui.renderer] (as
    converted by [float64(...)]), the chunks handed to [gui.terminal.Write]
    and the lines given to [gui.logger.Infof], oldest first. *)
Record GUI : Type := {
  GetMouseMode : MouseMode;
  CellWidth : Float64.float64;
  CellHeight : Float64.float64;
  written : list (list Z);
  logged : list (list Z)
}.

(** [gui.terminal.Write(data)]; the callback drops its results. *)
Definition Write (gui : GUI) (data : list Z) : GUI :=
  {| GetMouseMode := GetMouseMode gui;
     CellWidth := CellWidth gui;
     CellHeight := CellHeight gui;
     written := written gui ++ [data];
     logged := logged gui |}.

Definition bytes_of_string (s : string) : list Z :=
  map (fun a => Z.of_N (Ascii.N_of_ascii a)) (list_ascii_of_string s).

(** [gui.logger.Infof("Sending mouse packet: '%v'", packet)]. *)
Definition Infof_packet (gui : GUI) (packet : list Z) : GUI :=
  {| GetMouseMode := GetMouseMode gui;
     CellWidth := CellWidth gui;
     CellHeight := CellHeight gui;
     written := written gui;
     logged := logged gui ++
       [bytes_of_string "Sending mouse packet: '" ++ packet ++ bytes_of_string "'"] |}.

(** How a call ends: it returns, or it panics with a message. *)
Inductive Exec (A : Type) : Type :=
| Return (a : A)
| Panic (msg : string).
Arguments Return {A} a.
Arguments Panic {A} msg.

Section Callback.

Variable unspecified : Float64.float64 -> Z.

(** [int(math.Floor(p/float64(cell))) + 1] *)
Definition cell (p size : Float64.float64) : Z :=
  GoInt.int (Float64.to_int unspecified (Float64.Floor (Float64.div p size)) + 1).

(** [rune(x + 32)] for [x] an [int]. *)
Definition param (x : Z) : Z := GoInt.rune (GoInt.int (x + 32)).

(** The first part of the VT200 branch: the button code, or the early
    [return]. *)
Definition vt200_button (button action : Z) : option Z :=
  if action =? Press then
    if button =? MouseButton1 then Some 0
    else if button =? MouseButton2 then Some 1
    else if button =? MouseButton3 then Some 2
    else None
  else if action =? Release then Some 3
  else None.

(** [if mod&key > 0 { b |= bit }] on a [byte]; [mods] is the parameter
    [mod] of the callback. *)
Definition or_modifier (mods key bit b : Z) : Z :=
  if 0 <? Z.land mods key then GoInt.byte (Z.lor b bit) else b.

Definition vt200_modifiers (mods b : Z) : Z :=
  or_modifier mods ModControl 16
    (or_modifier mods ModSuper 8
       (or_modifier mods ModShift 4 b)).

Definition mouseButtonCallback
    (gui : GUI) (w : Window) (button action mods : Z) : Exec GUI :=
  match GetMouseMode gui with
  | MouseModeNone => Return gui
  | MouseModeX10 =>
      if action =? Press then
        let b := GoInt.rune button in
        let '(px, py) := GetCursorPos w in
        let x := cell px (CellWidth gui) in
        let y := cell py (CellHeight gui) in
        let packet :=
          Fmt.Sprintf_packet (GoInt.rune (b + 32)) (param x) (param y) in
        Return (Write gui packet)
      else Return gui
  | MouseModeVT200 =>
      match vt200_button button action with
      | None => Return gui
      | Some b0 =>
          let b := vt200_modifiers mods b0 in
          let '(px, py) := GetCursorPos w in
          let x := cell px (CellWidth gui) in
          let y := cell py (CellHeight gui) in
          let packet :=
            Fmt.Sprintf_packet (GoInt.rune (GoInt.byte (b + 32))) (param x) (param y) in
          Return (Write (Infof_packet gui packet) packet)
      end
  | MouseModeVT200Highlight => Panic "VT200 mouse highlight mode not supported"
  | MouseModeButtonEvent => Panic "Mouse button event mode not supported"
  | MouseModeAnyEvent => Panic "Mouse any event mode not supported"
  | MouseModeOther _ => Panic "Unsupported mouse mode"
  end.

(** The button parameter of the packet, for the events the callback
    reports: a press in X10 mode; a press of one of the first three buttons
    or a release in VT200 mode. *)
Definition button_param (gui : GUI) (button action mods : Z) : option Z :=
  match GetMouseMode gui with
  | MouseModeX10 =>
      if action =? Press then Some (GoInt.rune (GoInt.rune button + 32))
      else None
  | MouseModeVT200 =>
      match vt200_button button action with
      | Some b0 => Some (GoInt.rune (GoInt.byte (vt200_modifiers mods b0 + 32)))
      | None => None
      end
  | _ => None
  end.

(** The call returns after handing exactly [packet] to the terminal,
    leaving mode and cell metrics as they were. *)
Definition sends (gui : GUI) (w : Window) (button action mods : Z)
    (packet : list Z) : Prop :=
  exists gui',
    mouseButtonCallback gui w button action mods = Return gui' /\
    written gui' = written gui ++ [packet] /\
    GetMouseMode gui' = GetMouseMode gui /\
    CellWidth gui' = CellWidth gui /\
    CellHeight gui' = CellHeight gui.

End Callback.

(** Concrete states for the worked examples. *)
Definition gui_of (mode : MouseMode) (cw ch : Z) : GUI :=
  {| GetMouseMode := mode;
     CellWidth := Float64.of_int cw;
     CellHeight := Float64.of_int ch;
     written := [];
     logged := [] |}.

Definition window_at (px py : Z) : Window :=
  {| GetCursorPos := (Float64.of_int px, Float64.of_int py) |}.

End Gui.

(** * Properties *)

(** ** Integer conversions *)

Lemma wrap_signed_small (w z : Z) :
  0 < w -> - 2 ^ (w - 1) <= z < 2 ^ (w - 1) -> GoInt.wrap_signed w z = z.
Proof.
  intros Hw Hz. unfold GoInt.wrap_signed.
  assert (E : 2 ^ w = 2 * 2 ^ (w - 1)).
  { replace w with (Z.succ (w - 1)) at 1 by lia. apply Z.pow_succ_r. lia. }
  rewrite Z.mod_small; lia.
Qed.

Lemma wrap_signed_range (w z : Z) :
  0 < w -> - 2 ^ (w - 1) <= GoInt.wrap_signed w z < 2 ^ (w - 1).
Proof.
  intros Hw. unfold GoInt.wrap_signed.
  assert (E : 2 ^ w = 2 * 2 ^ (w - 1)).
  { replace w with (Z.succ (w - 1)) at 1 by lia. apply Z.pow_succ_r. lia. }
  assert (P : 0 < 2 ^ (w - 1)) by (apply Z.pow_pos_nonneg; lia).
  pose proof (Z.mod_pos_bound (z + 2 ^ (w - 1)) (2 ^ w)). lia.
Qed.

Lemma rune_small (z : Z) : - 2 ^ 31 <= z < 2 ^ 31 -> GoInt.rune z = z.
Proof. intros H. apply wrap_signed_small; [lia | exact H]. Qed.

Lemma rune_range (z : Z) : - 2 ^ 31 <= GoInt.rune z < 2 ^ 31.
Proof. apply (wrap_signed_range 32 z). lia. Qed.

Lemma int_small (z : Z) : - 2 ^ 63 <= z < 2 ^ 63 -> GoInt.int z = z.
Proof. intros H. apply wrap_signed_small; [lia | exact H]. Qed.

Lemma int_range (z : Z) : - 2 ^ 63 <= GoInt.int z < 2 ^ 63.
Proof. apply (wrap_signed_range 64 z). lia. Qed.

(** [rune(x + 32)] is [x + 32] as long as that fits in an [int32]. *)
Lemma param_small (x : Z) :
  - 2 ^ 31 <= x + 32 < 2 ^ 31 -> Gui.param x = x + 32.
Proof.
  intros H. unfold Gui.param. rewrite int_small by lia. now apply rune_small.
Qed.

(** ** The [%c] verb *)

Ltac split_ifs :=
  repeat match goal with
         | |- context [if ?c then _ else _] => destruct c eqn:?
         end.

Lemma fmtC_nonempty (v : Z) : (1 <= List.length (Fmt.fmtC v))%nat.
Proof.
  unfold Fmt.fmtC, Utf8.EncodeRune, Utf8.enc3. split_ifs; simpl; lia.
Qed.

Lemma fmtC_ascii (v : Z) : 0 <= v <= 127 -> Fmt.fmtC v = [v].
Proof.
  intros H. unfold Fmt.fmtC, GoInt.uint64.
  rewrite (Z.mod_small v) by lia.
  replace (Utf8.MaxRune <? v) with false
    by (symmetry; apply Z.ltb_ge; unfold Utf8.MaxRune; lia).
  rewrite rune_small by lia.
  unfold Utf8.EncodeRune, GoInt.uint32. rewrite (Z.mod_small v) by lia.
  replace (v <=? Utf8.rune1Max) with true
    by (symmetry; apply Z.leb_le; unfold Utf8.rune1Max; lia).
  unfold GoInt.byte. now rewrite Z.mod_small by lia.
Qed.

(** A code point from 128 to 0x7FF takes the two-byte form. *)
Lemma fmtC_two_bytes (v : Z) :
  128 <= v <= 0x7FF ->
  Fmt.fmtC v = [Z.lor 0xC0 (v / 64); Z.lor 0x80 (v mod 64)].
Proof.
  intros H. unfold Fmt.fmtC, GoInt.uint64.
  rewrite (Z.mod_small v) by lia.
  replace (Utf8.MaxRune <? v) with false
    by (symmetry; apply Z.ltb_ge; unfold Utf8.MaxRune; lia).
  rewrite rune_small by lia.
  unfold Utf8.EncodeRune, GoInt.uint32. rewrite (Z.mod_small v) by lia.
  replace (v <=? Utf8.rune1Max) with false
    by (symmetry; apply Z.leb_gt; unfold Utf8.rune1Max; lia).
  replace (v <=? Utf8.rune2Max) with true
    by (symmetry; apply Z.leb_le; unfold Utf8.rune2Max; lia).
  unfold Utf8.t2, Utf8.tx, Utf8.maskx, GoInt.byte.
  rewrite (Z.shiftr_div_pow2 v 6) by lia. change (2 ^ 6) with 64.
  assert (Hq : 0 <= v / 64 < 32).
  { split; [apply Z.div_pos; lia | apply Z.div_lt_upper_bound; lia]. }
  rewrite (Z.mod_small (v / 64)) by lia.
  change 0x3F with (Z.ones 6). rewrite Z.land_ones by lia.
  change (2 ^ 6) with 64.
  rewrite Z.mod_mod_divide; [reflexivity | now exists 4].
Qed.

(** Every non-ASCII rune takes at least two bytes. *)
Lemma fmtC_long (v : Z) :
  128 <= v < 2 ^ 31 -> (2 <= List.length (Fmt.fmtC v))%nat.
Proof.
  intros H. unfold Fmt.fmtC, GoInt.uint64.
  rewrite (Z.mod_small v) by lia.
  destruct (Utf8.MaxRune <? v) eqn:E.
  - cbn. lia.
  - apply Z.ltb_ge in E. unfold Utf8.MaxRune in E.
    rewrite rune_small by lia.
    unfold Utf8.EncodeRune, GoInt.uint32. rewrite (Z.mod_small v) by lia.
    replace (v <=? Utf8.rune1Max) with false
      by (symmetry; apply Z.leb_gt; unfold Utf8.rune1Max; lia).
    unfold Utf8.enc3. split_ifs; simpl; lia.
Qed.

(** ** float64: size of the mantissa after rounding *)

Lemma digits2_pos_bounds (p : positive) :
  2 ^ (Zpos (digits2_pos p) - 1) <= Zpos p < 2 ^ Zpos (digits2_pos p).
Proof.
  induction p as [p IH | p IH |]; cbn [digits2_pos].
  - rewrite Pos2Z.inj_succ.
    replace (Z.succ (Zpos (digits2_pos p)) - 1)
      with (Z.succ (Zpos (digits2_pos p) - 1)) by lia.
    rewrite !Z.pow_succ_r by lia. lia.
  - rewrite Pos2Z.inj_succ.
    replace (Z.succ (Zpos (digits2_pos p)) - 1)
      with (Z.succ (Zpos (digits2_pos p) - 1)) by lia.
    rewrite !Z.pow_succ_r by lia. lia.
  - cbn. lia.
Qed.

Lemma Zdigits2_nonneg (n : Z) : 0 <= Zdigits2 n.
Proof. destruct n; cbn; lia. Qed.

Lemma Zdigits2_upper (n : Z) : 0 <= n -> n < 2 ^ Zdigits2 n.
Proof.
  destruct n as [| p | p]; intros H; cbn [Zdigits2]; [cbn; lia | | lia].
  apply digits2_pos_bounds.
Qed.

(** A number below [2 ^ k] has at most [k] digits. *)
Lemma Zdigits2_le (n k : Z) : 0 <= n < 2 ^ k -> 0 <= k -> Zdigits2 n <= k.
Proof.
  intros [H0 H1] Hk. destruct n as [| p | p]; cbn [Zdigits2]; [lia | | lia].
  pose proof (digits2_pos_bounds p) as [Hlo _].
  destruct (Z_le_gt_dec (Zpos (digits2_pos p)) k) as [L | G]; [exact L | exfalso].
  assert (2 ^ k <= 2 ^ (Zpos (digits2_pos p) - 1))
    by (apply Z.pow_le_mono_r; lia).
  lia.
Qed.

Lemma pow2_xO (p : positive) : 2 ^ Zpos p~0 = 2 ^ Zpos p * 2 ^ Zpos p.
Proof. rewrite Pos2Z.inj_xO, <- Z.pow_add_r by lia. f_equal. lia. Qed.

Lemma pow2_xI (p : positive) : 2 ^ Zpos p~1 = 2 * 2 ^ Zpos p * 2 ^ Zpos p.
Proof.
  rewrite Pos2Z.inj_xI, <- Z.mul_assoc, <- Z.pow_add_r, <- Z.pow_succ_r by lia.
  f_equal. lia.
Qed.

Lemma shr_1_m (mrs : shr_record) :
  0 <= shr_m mrs -> shr_m (shr_1 mrs) = shr_m mrs / 2.
Proof.
  destruct mrs as [m r s]. cbn [shr_m]. intros H.
  destruct m as [| [p | p |] | p]; cbn [shr_1 shr_m]; try lia.
  - reflexivity.
  - rewrite Pos2Z.inj_xI. symmetry.
    rewrite Z.add_comm, Z.mul_comm. rewrite Z.div_add by lia. 
    change (1 / 2) with 0. lia.
  - rewrite Pos2Z.inj_xO. symmetry. rewrite Z.mul_comm. apply Z.div_mul. lia.
  - reflexivity.
Qed.

Lemma iter_shr_1_m (p : positive) (mrs : shr_record) :
  0 <= shr_m mrs ->
  shr_m (SpecFloat.iter_pos shr_1 p mrs) = shr_m mrs / 2 ^ Zpos p.
Proof.
  revert mrs.
  assert (step : forall mrs, 0 <= shr_m mrs -> 0 <= shr_m mrs / 2).
  { intros. apply Z.div_pos; lia. }
  induction p as [p IH | p IH |]; intros mrs H; cbn [SpecFloat.iter_pos].
  - assert (H1 : 0 <= shr_m (shr_1 mrs)) by (rewrite shr_1_m; auto).
    assert (H2 : 0 <= shr_m (SpecFloat.iter_pos shr_1 p (shr_1 mrs))).
    { rewrite IH by exact H1. apply Z.div_pos; [exact H1 | ]. apply Z.pow_pos_nonneg; lia. }
    rewrite IH by exact H2. rewrite IH by exact H1. rewrite shr_1_m by exact H.
    rewrite !Z.div_div by (try apply Z.pow_pos_nonneg; lia).
    f_equal. rewrite pow2_xI. lia.
  - assert (H2 : 0 <= shr_m (SpecFloat.iter_pos shr_1 p mrs)).
    { rewrite IH by exact H. apply Z.div_pos; [exact H | ]. apply Z.pow_pos_nonneg; lia. }
    rewrite IH by exact H2. rewrite IH by exact H.
    rewrite !Z.div_div by (try apply Z.pow_pos_nonneg; lia).
    f_equal. symmetry. apply pow2_xO.
  - rewrite shr_1_m by exact H. reflexivity.
Qed.

Lemma shr_record_of_loc_m (m : Z) (l : location) :
  shr_m (shr_record_of_loc m l) = m.
Proof. destruct l as [| []]; reflexivity. Qed.

(** After [shr_fexp] a non-negative mantissa fits in 53 bits. *)
Lemma shr_fexp_m_bound (m e : Z) (l : location) :
  0 <= m ->
  0 <= shr_m (fst (shr_fexp Float64.prec Float64.emax m e l)) < 2 ^ 53.
Proof.
  intros Hm. unfold shr_fexp, shr.
  pose proof (Zdigits2_upper m Hm) as Hd.
  pose proof (Zdigits2_nonneg m) as Hd0.
  set (d := Zdigits2 m) in *.
  assert (Hf : d + e - 53 <= fexp Float64.prec Float64.emax (d + e))
    by (unfold fexp, Float64.prec; lia).
  destruct (fexp Float64.prec Float64.emax (d + e) - e) as [| p | p] eqn:En;
    cbn [fst]; rewrite ?shr_record_of_loc_m.
  - split; [exact Hm |].
    apply Z.lt_le_trans with (1 := Hd). apply Z.pow_le_mono_r; lia.
  - rewrite iter_shr_1_m by (rewrite shr_record_of_loc_m; exact Hm).
    rewrite shr_record_of_loc_m.
    assert (P : 0 < 2 ^ Zpos p) by (apply Z.pow_pos_nonneg; lia).
    split; [apply Z.div_pos; lia |].
    apply Z.div_lt_upper_bound; [exact P |].
    rewrite <- Z.pow_add_r by lia.
    apply Z.lt_le_trans with (1 := Hd). apply Z.pow_le_mono_r; lia.
  - split; [exact Hm |].
    apply Z.lt_le_trans with (1 := Hd). apply Z.pow_le_mono_r; lia.
Qed.

Lemma round_nearest_even_nonneg (m : Z) (l : location) :
  0 <= m -> 0 <= round_nearest_even m l.
Proof.
  intros H. destruct l as [| []]; cbn [round_nearest_even];
    try destruct (Z.even m); lia.
Qed.

Lemma binary_round_aux_rounded (s : bool) (mx ex : Z) (lx : location) :
  0 <= mx ->
  Float64.rounded s (binary_round_aux Float64.prec Float64.emax s mx ex lx).
Proof.
  intros Hm. unfold binary_round_aux.
  pose proof (shr_fexp_m_bound mx ex lx Hm) as B1.
  destruct (shr_fexp Float64.prec Float64.emax mx ex lx) as [mrs1 e1].
  cbn [fst] in B1.
  pose proof (shr_fexp_m_bound
                (round_nearest_even (shr_m mrs1) (loc_of_shr_record mrs1))
                e1 loc_Exact
                (round_nearest_even_nonneg _ _ (proj1 B1))) as B2.
  destruct (shr_fexp Float64.prec Float64.emax
              (round_nearest_even (shr_m mrs1) (loc_of_shr_record mrs1))
              e1 loc_Exact) as [mrs2 e2].
  cbn [fst] in B2.
  destruct (shr_m mrs2) as [| m | m]; cbn [Float64.rounded].
  - reflexivity.
  - destruct (e2 <=? Float64.emax - Float64.prec); cbn [Float64.rounded];
      [split; [reflexivity | apply B2] | reflexivity].
  - lia.
Qed.

(** The quotient of a finite number by a finite non-zero one. *)
Lemma div_rounded (sx sy : bool) (mx my : positive) (ex ey : Z) :
  Float64.rounded (xorb sx sy)
    (Float64.div (S754_finite sx mx ex) (S754_finite sy my ey)).
Proof.
  unfold Float64.div, SFdiv.
  destruct (SFdiv_core_binary Float64.prec Float64.emax (Zpos mx) ex (Zpos my) ey)
    as [[mz ez] lz] eqn:E.
  apply binary_round_aux_rounded.
  unfold SFdiv_core_binary in E.
  match type of E with
  | (let '(q, r) := Z.div_eucl ?a ?b in _) = _ =>
      assert (Hq : 0 <= a / b);
      [ apply Z.div_pos; [| lia] | unfold Z.div in Hq; destruct (Z.div_eucl a b) ]
  end.
  - match goal with
    | |- 0 <= match ?s with _ => _ end => destruct s eqn:Es
    end; try lia.
    apply Z.shiftl_nonneg. lia.
  - injection E as <- _ _. exact Hq.
Qed.

(** ** float64: [math.Floor] followed by [int(...)] *)

Lemma iter_xO_value (k n : positive) :
  Zpos (Pos.iter xO k n) = Zpos k * 2 ^ Zpos n.
Proof.
  induction n as [| n IH] using Pos.peano_ind.
  - cbn [Pos.iter]. rewrite Pos2Z.inj_xO. change (2 ^ 1) with 2. lia.
  - rewrite Pos.iter_succ, Pos2Z.inj_xO, IH, Pos2Z.inj_succ, Z.pow_succ_r by lia.
    lia.
Qed.

Lemma iter_xO_digits (k n : positive) :
  digits2_pos (Pos.iter xO k n) = (digits2_pos k + n)%positive.
Proof.
  induction n as [| n IH] using Pos.peano_ind.
  - cbn. lia.
  - rewrite Pos.iter_succ. cbn [digits2_pos]. rewrite IH. lia.
Qed.

(** A mantissa of exactly 53 digits within the exponent range is left
    alone by the rounding. *)
Lemma binary_round_aux_exact (s : bool) (m : positive) (e : Z) :
  Zpos (digits2_pos m) = 53 -> - 1074 <= e <= 971 ->
  binary_round_aux Float64.prec Float64.emax s (Zpos m) e loc_Exact
  = S754_finite s m e.
Proof.
  intros Hd He.
  assert (Hn : fexp Float64.prec Float64.emax (Zdigits2 (Zpos m) + e) - e = 0).
  { cbn [Zdigits2]. rewrite Hd. unfold fexp, emin, Float64.prec, Float64.emax. lia. }
  unfold binary_round_aux, shr_fexp. rewrite Hn.
  cbn [shr shr_record_of_loc shr_m loc_of_shr_record round_nearest_even].
  rewrite Hn. cbn [shr shr_m].
  replace (e <=? Float64.emax - Float64.prec) with true; [reflexivity |].
  symmetry. apply Z.leb_le. unfold Float64.emax, Float64.prec. lia.
Qed.

(** An integer below [2 ^ 53] is a float64: normalising it only shifts. *)
Lemma binary_round_integer (s : bool) (k : positive) :
  Zpos k < 2 ^ 53 ->
  exists m e,
    binary_round Float64.prec Float64.emax s k 0 = S754_finite s m e /\
    - 52 <= e <= 0 /\ Zpos m = Zpos k * 2 ^ (- e).
Proof.
  intros Hk.
  assert (Hd : Zpos (digits2_pos k) <= 53).
  { apply (Zdigits2_le (Zpos k) 53); lia. }
  unfold binary_round.
  replace (fexp Float64.prec Float64.emax (Zpos (digits2_pos k) + 0))
    with (Zpos (digits2_pos k) - 53)
    by (unfold fexp, emin, Float64.prec, Float64.emax; lia).
  unfold shl_align.
  destruct (Zpos (digits2_pos k) - 53 - 0) as [| q | q] eqn:En.
  - exists k, 0. rewrite binary_round_aux_exact by lia.
    repeat split; try lia.
  - lia.
  - exists (Pos.iter xO k q), (Zpos (digits2_pos k) - 53).
    rewrite binary_round_aux_exact.
    + repeat split; try lia. rewrite iter_xO_value. do 2 f_equal. lia.
    + rewrite iter_xO_digits. lia.
    + lia.
Qed.

Lemma to_int_normalize (u : Float64.float64 -> Z) (k : Z) (s : bool) :
  - 2 ^ 53 < k < 2 ^ 53 ->
  Float64.to_int u (binary_normalize Float64.prec Float64.emax k 0 s) = k.
Proof.
  intros Hk.
  assert (aux : forall sg p, Zpos p < 2 ^ 53 ->
            Float64.to_int u (binary_round Float64.prec Float64.emax sg p 0)
            = cond_Zopp sg (Zpos p)).
  { intros sg p Hp.
    destruct (binary_round_integer sg p Hp) as (m & e & -> & He & Hm).
    cbn [Float64.to_int]. unfold Float64.trunc.
    assert (Hv : (if 0 <=? e then Zpos m * 2 ^ e else Zpos m / 2 ^ (- e)) = Zpos p).
    { destruct (0 <=? e) eqn:E0.
      - apply Z.leb_le in E0. assert (e = 0) as -> by lia.
        rewrite Hm. cbn. lia.
      - rewrite Hm. apply Z.div_mul. apply Z.pow_nonzero; lia. }
    rewrite Hv.
    replace ((GoInt.MinInt64 <=? cond_Zopp sg (Zpos p))
             && (cond_Zopp sg (Zpos p) <=? GoInt.MaxInt64)) with true;
      [reflexivity |].
    symmetry. apply andb_true_intro.
    unfold GoInt.MinInt64, GoInt.MaxInt64.
    split; [apply Z.leb_le | apply Z.leb_le]; destruct sg; cbn [cond_Zopp]; lia. }
  destruct k as [| p | p]; cbn [binary_normalize].
  - reflexivity.
  - apply (aux false). lia.
  - apply (aux true). lia.
Qed.

(** Every float64 value has a mantissa of at most 53 bits. *)
Lemma valid_small (x : Float64.float64) :
  Float64.valid x = true -> Float64.small_mantissa x.
Proof.
  destruct x as [| | | s m e]; cbn [Float64.small_mantissa]; try easy.
  unfold Float64.valid, valid_binary, bounded, canonical_mantissa.
  intros H. apply andb_prop in H. destruct H as [H _].
  apply Z.eqb_eq in H. unfold fexp, Float64.prec in H.
  pose proof (digits2_pos_bounds m) as [_ Hu].
  apply Z.lt_le_trans with (1 := Hu). apply Z.pow_le_mono_r; lia.
Qed.

Lemma rounded_small (s : bool) (x : Float64.float64) :
  Float64.rounded s x -> Float64.small_mantissa x.
Proof. destruct x; cbn; tauto. Qed.

Lemma cond_Zopp_mul (s : bool) (a b : Z) :
  cond_Zopp s a * b = cond_Zopp s (a * b).
Proof. destruct s; cbn [cond_Zopp]; lia. Qed.

(** [int(math.Floor(x))] is the floor of the number [x] stands for, as
    long as that floor is an [int]. *)
Lemma to_int_Floor (u : Float64.float64 -> Z) (x : Float64.float64) :
  Float64.is_finite x = true -> Float64.small_mantissa x ->
  GoInt.MinInt64 <= Qfloor (Float64.to_Q x) <= GoInt.MaxInt64 ->
  Float64.to_int u (Float64.Floor x) = Qfloor (Float64.to_Q x).
Proof.
  destruct x as [s | s | | s m e]; cbn [Float64.is_finite]; try discriminate;
    intros _ Hm Hr.
  - reflexivity.
  - cbn [Float64.small_mantissa] in Hm.
    unfold Float64.to_Q, Float64.Floor in *.
    destruct (0 <=? e) eqn:E0.
    + rewrite Qfloor_Z in *. cbn [Float64.to_int]. unfold Float64.trunc.
      rewrite E0, <- cond_Zopp_mul.
      replace ((GoInt.MinInt64 <=? cond_Zopp s (Zpos m) * 2 ^ e)
               && (cond_Zopp s (Zpos m) * 2 ^ e <=? GoInt.MaxInt64)) with true;
        [reflexivity |].
      symmetry. apply andb_true_intro. split; apply Z.leb_le; lia.
    + apply Z.leb_gt in E0.
      assert (P : 1 < 2 ^ (- e)) by (apply Z.pow_gt_1; lia).
      cbn [Qfloor]. rewrite Z2Pos.id by lia.
      apply to_int_normalize.
      destruct s; cbn [cond_Zopp].
      * split.
        -- apply Z.lt_le_trans with (- Zpos m); [lia |].
           apply Z.div_le_lower_bound; nia.
        -- apply Z.le_lt_trans with (-1); [| lia].
           assert (- Zpos m / 2 ^ (- e) < 0); [| lia].
           apply Z.div_lt_upper_bound; lia.
      * split.
        -- apply Z.lt_le_trans with 0; [lia |]. apply Z.div_pos; lia.
        -- apply Z.le_lt_trans with (Zpos m); [| lia].
           apply Z.div_le_upper_bound; nia.
Qed.

(** ** The cell under the pointer *)

Section Cell.

Variable u : Float64.float64 -> Z.

(** The quotient of a finite position by a positive cell size is a rounded
    number carrying the sign of the position. *)
Lemma div_position (p size : Float64.float64) :
  Float64.is_finite p = true -> Float64.positive size = true ->
  exists s, Float64.rounded s (Float64.div p size) /\
            (Float64.nonneg p = true ->
             s = false \/ Float64.is_zero (Float64.div p size) = true) /\
            (Float64.negative p = true -> s = true).
Proof.
  destruct size as [| | | [] ms es]; try discriminate.
  destruct p as [s | | | s m e]; try discriminate; intros _ _.
  - exists s. split; [destruct s; reflexivity |].
    split; [intros _; right; reflexivity | discriminate].
  - exists (xorb s false). split; [apply div_rounded |].
    destruct s; cbn [Float64.nonneg Float64.negative xorb]; split;
      intros; try discriminate; auto.
Qed.

(** [cell] is the floor of the quotient plus one, when the quotient is
    finite and its floor fits in an [int]. *)
Lemma cell_floor (p size : Float64.float64) :
  Float64.is_finite p = true -> Float64.positive size = true ->
  Float64.is_finite (Float64.div p size) = true ->
  GoInt.MinInt64 <= Qfloor (Float64.to_Q (Float64.div p size)) < GoInt.MaxInt64 ->
  Gui.cell u p size = Qfloor (Float64.to_Q (Float64.div p size)) + 1.
Proof.
  intros Hp Hs Hq Hr.
  destruct (div_position p size Hp Hs) as (s & Hrd & _).
  unfold Gui.cell.
  rewrite to_int_Floor;
    [| exact Hq | exact (rounded_small _ _ Hrd) | lia].
  apply int_small. unfold GoInt.MinInt64, GoInt.MaxInt64 in Hr. lia.
Qed.

Lemma Qfloor_to_Q_sign (x : Float64.float64) :
  match x with
  | S754_finite false _ _ => 0 <= Qfloor (Float64.to_Q x)
  | S754_finite true _ _ => Qfloor (Float64.to_Q x) <= -1
  | _ => Qfloor (Float64.to_Q x) = 0
  end.
Proof.
  destruct x as [s | s | | s m e]; try reflexivity.
  unfold Float64.to_Q. destruct (0 <=? e) eqn:E.
  - apply Z.leb_le in E. rewrite Qfloor_Z.
    assert (0 < 2 ^ e) by (apply Z.pow_pos_nonneg; lia).
    destruct s; cbn [cond_Zopp]; nia.
  - apply Z.leb_gt in E. cbn [Qfloor].
    assert (0 < 2 ^ (- e)) by (apply Z.pow_pos_nonneg; lia).
    rewrite Z2Pos.id by lia.
    destruct s; cbn [cond_Zopp].
    + assert (- Zpos m / 2 ^ (- e) < 0); [| lia].
      apply Z.div_lt_upper_bound; lia.
    + apply Z.div_pos; lia.
Qed.

(** At or right of the origin the cell number is at least 1. *)
Lemma cell_nonneg (p size : Float64.float64) :
  Float64.nonneg p = true -> Float64.positive size = true ->
  Float64.is_finite (Float64.div p size) = true ->
  Qfloor (Float64.to_Q (Float64.div p size)) < GoInt.MaxInt64 ->
  Gui.cell u p size = Qfloor (Float64.to_Q (Float64.div p size)) + 1 /\
  1 <= Gui.cell u p size.
Proof.
  intros Hp Hs Hq Hr.
  assert (Hf : Float64.is_finite p = true) by (destruct p as [| | | []]; easy).
  destruct (div_position p size Hf Hs) as (s & Hrd & Hs0 & _).
  specialize (Hs0 Hp).
  assert (H0 : 0 <= Qfloor (Float64.to_Q (Float64.div p size))).
  { pose proof (Qfloor_to_Q_sign (Float64.div p size)) as S.
    destruct (Float64.div p size) as [| | | sq mq eq]; try (rewrite S; lia).
    cbn in Hrd. destruct Hrd as [-> _].
    destruct Hs0 as [-> | Hz]; [exact S | discriminate]. }
  rewrite cell_floor; try assumption; [lia |].
  unfold GoInt.MinInt64. lia.
Qed.

(** At the origin it is 1, whatever the cell size. *)
Lemma cell_origin (s : bool) (size : Float64.float64) :
  Float64.positive size = true -> Gui.cell u (S754_zero s) size = 1.
Proof.
  destruct size as [| | | [] ms es]; try discriminate. intros _. reflexivity.
Qed.

(** Left of (above) the origin nothing is clamped: the cell number is the
    floor plus one, hence at most 0, unless the quotient underflows to
    minus zero. *)
Lemma cell_negative (p size : Float64.float64) :
  Float64.negative p = true -> Float64.positive size = true ->
  Float64.is_finite (Float64.div p size) = true ->
  GoInt.MinInt64 <= Qfloor (Float64.to_Q (Float64.div p size)) ->
  Gui.cell u p size = Qfloor (Float64.to_Q (Float64.div p size)) + 1 /\
  (if Float64.is_zero (Float64.div p size)
   then Gui.cell u p size = 1 else Gui.cell u p size <= 0).
Proof.
  intros Hp Hs Hq Hr.
  assert (Hf : Float64.is_finite p = true) by (destruct p as [| | | []]; easy).
  destruct (div_position p size Hf Hs) as (s & Hrd & _ & Hs1).
  specialize (Hs1 Hp). subst s.
  pose proof (Qfloor_to_Q_sign (Float64.div p size)) as S.
  assert (E : Gui.cell u p size = Qfloor (Float64.to_Q (Float64.div p size)) + 1).
  { apply cell_floor; try assumption. split; [exact Hr |].
    destruct (Float64.div p size) as [| | | sq mq eq]; try (rewrite S; cbn; lia).
    cbn in Hrd. destruct Hrd as [-> _]. unfold GoInt.MaxInt64. lia. }
  split; [exact E |]. rewrite E.
  destruct (Float64.div p size) as [| | | sq mq eq]; cbn [Float64.is_zero];
    try discriminate.
  - rewrite S. reflexivity.
  - cbn in Hrd. destruct Hrd as [-> _]. lia.
Qed.

End Cell.

(** The conversion of a quotient too large for an [int] depends on the
    target: here 1e30 / 10. *)
Lemma conversion_is_target_dependent :
  Gui.cell Float64.amd64 (Float64.of_int (10 ^ 30)) (Float64.of_int 10)
  = GoInt.MinInt64 + 1 /\
  Gui.cell Float64.arm64 (Float64.of_int (10 ^ 30)) (Float64.of_int 10)
  = GoInt.MinInt64.
Proof. split; reflexivity. Qed.

(** ** The callback, branch by branch *)

Section Branches.

Import Terminal Glfw Gui.

Variable u : Float64.float64 -> Z.

(** A reported event hands one packet to the terminal. *)
Lemma callback_reports (gui : GUI) (w : Window) (button action mods : Z)
    (px py : Float64.float64) (b : Z) :
  GetCursorPos w = (px, py) ->
  button_param gui button action mods = Some b ->
  sends u gui w button action mods
    (Fmt.Sprintf_packet b
       (param (cell u px (CellWidth gui)))
       (param (cell u py (CellHeight gui)))).
Proof.
  intros Hc Hb. unfold sends, button_param, mouseButtonCallback in *.
  destruct (GetMouseMode gui) eqn:Em; try discriminate.
  - destruct (action =? Press); [| discriminate].
    injection Hb as <-. rewrite Hc.
    eexists. split; [reflexivity |]. repeat split; exact Em.
  - destruct (vt200_button button action) as [b0 |]; [| discriminate].
    injection Hb as <-. rewrite Hc.
    eexists. split; [reflexivity |]. repeat split; exact Em.
Qed.

(** In the three modes the callback handles, any other event is dropped. *)
Lemma callback_drops (gui : GUI) (w : Window) (button action mods : Z) :
  button_param gui button action mods = None ->
  (exists msg, mouseButtonCallback u gui w button action mods = Panic msg) \/
  mouseButtonCallback u gui w button action mods = Return gui.
Proof.
  unfold button_param, mouseButtonCallback.
  destruct (GetMouseMode gui); intros H;
    try (left; eexists; reflexivity); right; try reflexivity.
  - destruct (action =? Press); [discriminate | reflexivity].
  - destruct (vt200_button button action); [discriminate | reflexivity].
Qed.

Lemma vt200_button_range (button action b0 : Z) :
  vt200_button button action = Some b0 -> 0 <= b0 <= 3.
Proof.
  unfold vt200_button. split_ifs; intros H; inversion H; lia.
Qed.

(** On a button code from 0 to 3 the three [|=] add up. *)
Lemma vt200_modifiers_sum (mods b0 : Z) :
  0 <= b0 <= 3 ->
  vt200_modifiers mods b0
  = b0 + (if 0 <? Z.land mods ModShift then 4 else 0)
       + (if 0 <? Z.land mods ModSuper then 8 else 0)
       + (if 0 <? Z.land mods ModControl then 16 else 0).
Proof.
  intros H.
  assert (C : b0 = 0 \/ b0 = 1 \/ b0 = 2 \/ b0 = 3) by lia.
  unfold vt200_modifiers, or_modifier.
  destruct (0 <? Z.land mods ModShift), (0 <? Z.land mods ModSuper),
           (0 <? Z.land mods ModControl);
    destruct C as [-> | [-> | [-> | ->]]]; reflexivity.
Qed.

Lemma vt200_modifiers_range (mods b0 : Z) :
  0 <= b0 <= 3 -> 0 <= vt200_modifiers mods b0 <= 31.
Proof.
  intros H. rewrite vt200_modifiers_sum by exact H. split_ifs; lia.
Qed.

Lemma button_param_range (gui : GUI) (button action mods b : Z) :
  button_param gui button action mods = Some b -> - 2 ^ 31 <= b < 2 ^ 31.
Proof.
  unfold button_param. destruct (GetMouseMode gui); try discriminate.
  - destruct (action =? Press); [| discriminate].
    intros H. injection H as <-. apply rune_range.
  - destruct (vt200_button button action); [| discriminate].
    intros H. injection H as <-. apply rune_range.
Qed.

Lemma param_range (x : Z) : - 2 ^ 31 <= param x < 2 ^ 31.
Proof. apply rune_range. Qed.

Lemma Sprintf_packet_length (b x y : Z) :
  List.length (Fmt.Sprintf_packet b x y)
  = (3 + List.length (Fmt.fmtC b) + List.length (Fmt.fmtC x)
       + List.length (Fmt.fmtC y))%nat.
Proof.
  unfold Fmt.Sprintf_packet. rewrite !length_app. cbn [List.length]. lia.
Qed.

End Branches.

(** ** Worked examples *)

Import Terminal Glfw Gui.

(** Button 2 with Shift at pixel (15, 25) in cells of 10 by 20: the packet
    ESC [ M chr(37) chr(34) chr(34), logged and then written. *)
Example press_button2_shift :
  mouseButtonCallback Float64.amd64 (gui_of MouseModeVT200 10 20)
    (window_at 15 25) MouseButton2 Press ModShift
  = Return
      (Write (Infof_packet (gui_of MouseModeVT200 10 20) [27; 91; 77; 37; 34; 34])
         [27; 91; 77; 37; 34; 34]).
Proof. reflexivity. Qed.

(** The pointer at pixel (0, 0) is in column 1, row 1. *)
Example press_at_origin :
  mouseButtonCallback Float64.amd64 (gui_of MouseModeX10 7 13)
    (window_at 0 0) MouseButton1 Press 0
  = Return (Write (gui_of MouseModeX10 7 13) [27; 91; 77; 32; 33; 33]).
Proof. reflexivity. Qed.

(** In X10 mode a release is not reported. *)
Example x10_release_dropped :
  mouseButtonCallback Float64.amd64 (gui_of MouseModeX10 10 20)
    (window_at 15 25) MouseButton1 Release 0
  = Return (gui_of MouseModeX10 10 20).
Proof. reflexivity. Qed.

(** ** Properties of the packets *)

(** C7. With the tracking mode None the callback returns at once: for every
    button, action, modifier word and pointer position nothing is written
    or logged and nothing fails. *)
Theorem mode_none_no_packet (u : Float64.float64 -> Z) (gui : GUI)
    (w : Window) (button action mods : Z) :
  GetMouseMode gui = MouseModeNone ->
  mouseButtonCallback u gui w button action mods = Return gui.
Proof.
  intros H. unfold mouseButtonCallback. now rewrite H.
Qed.

Lemma mode_none_no_packet_witness :
  mouseButtonCallback Float64.amd64 (gui_of MouseModeNone 10 20)
    (window_at 15 25) MouseButton1 Press ModShift
  = Return (gui_of MouseModeNone 10 20).
Proof.
  apply (mode_none_no_packet Float64.amd64 (gui_of MouseModeNone 10 20)
           (window_at 15 25) MouseButton1 Press ModShift).
  reflexivity.
Defined.

(** C1 (amended). In the modes VT200Highlight, ButtonEvent and
    AnyEvent the callback panics, with the message of the mode, for every
    event and every cell metrics; it returns no error value and writes no
    packet. *)
Theorem unsupported_modes_panic (u : Float64.float64 -> Z) (gui : GUI)
    (w : Window) (button action mods : Z) :
  (GetMouseMode gui = MouseModeVT200Highlight ->
   mouseButtonCallback u gui w button action mods
   = Panic "VT200 mouse highlight mode not supported") /\
  (GetMouseMode gui = MouseModeButtonEvent ->
   mouseButtonCallback u gui w button action mods
   = Panic "Mouse button event mode not supported") /\
  (GetMouseMode gui = MouseModeAnyEvent ->
   mouseButtonCallback u gui w button action mods
   = Panic "Mouse any event mode not supported").
Proof.
  unfold mouseButtonCallback. repeat split; intros ->; reflexivity.
Qed.

Lemma unsupported_modes_panic_witness :
  mouseButtonCallback Float64.amd64 (gui_of MouseModeButtonEvent 10 20)
    (window_at 15 25) MouseButton1 Release 0
  = Panic "Mouse button event mode not supported".
Proof.
  apply (unsupported_modes_panic Float64.amd64
           (gui_of MouseModeButtonEvent 10 20) (window_at 15 25)
           MouseButton1 Release 0).
  reflexivity.
Defined.

(** C1, counterexample: a press of button 1 in VT200Highlight mode ends in
    a panic, not in a returned value. *)
Lemma highlight_mode_aborts :
  mouseButtonCallback Float64.amd64 (gui_of MouseModeVT200Highlight 10 20)
    (window_at 15 25) MouseButton1 Press 0
  = Panic "VT200 mouse highlight mode not supported" /\
  forall gui',
    mouseButtonCallback Float64.amd64 (gui_of MouseModeVT200Highlight 10 20)
      (window_at 15 25) MouseButton1 Press 0
    <> Return gui'.
Proof.
  split; [reflexivity | intros gui' H; discriminate H].
Qed.

(** C9. The outcome is a function of mode, event, pointer position and cell
    metrics alone: from two states that agree on mode and metrics (whatever
    was written or logged before) the same call panics with the same
    message, or returns after appending the same chunks to what the
    terminal had received, leaving mode and metrics unchanged. *)
Theorem callback_deterministic (u : Float64.float64 -> Z) (g1 g2 : GUI)
    (w : Window) (button action mods : Z) :
  GetMouseMode g1 = GetMouseMode g2 ->
  CellWidth g1 = CellWidth g2 ->
  CellHeight g1 = CellHeight g2 ->
  match mouseButtonCallback u g1 w button action mods,
        mouseButtonCallback u g2 w button action mods with
  | Return g1', Return g2' =>
      (exists sent,
          written g1' = written g1 ++ sent /\
          written g2' = written g2 ++ sent) /\
      GetMouseMode g1' = GetMouseMode g1 /\
      CellWidth g1' = CellWidth g1 /\
      CellHeight g1' = CellHeight g1
  | Panic m1, Panic m2 => m1 = m2
  | _, _ => False
  end.
Proof.
  intros Hm Hw Hh. unfold mouseButtonCallback.
  rewrite <- Hm, <- Hw, <- Hh.
  assert (nil_sent : forall g g' : GUI,
             exists sent : list (list Z),
               written g = written g ++ sent /\ written g' = written g' ++ sent).
  { intros. exists []. now rewrite !app_nil_r. }
  destruct (GetMouseMode g1) eqn:Em; try reflexivity.
  - repeat split; auto.
  - destruct (action =? Press); [| repeat split; auto].
    destruct (GetCursorPos w) as [px py].
    repeat split; auto. eexists. split; reflexivity.
  - destruct (vt200_button button action); [| repeat split; auto].
    destruct (GetCursorPos w) as [px py].
    repeat split; auto. eexists. split; reflexivity.
Qed.

(** Two calls in a row send the same bytes twice. *)
Lemma callback_deterministic_witness :
  match mouseButtonCallback Float64.amd64 (gui_of MouseModeVT200 10 20)
          (window_at 15 25) MouseButton2 Press ModShift,
        mouseButtonCallback Float64.amd64
          (Write (gui_of MouseModeVT200 10 20) [27; 91; 77; 37; 34; 34])
          (window_at 15 25) MouseButton2 Press ModShift with
  | Return g1', Return g2' =>
      (exists sent,
          written g1' = [] ++ sent /\
          written g2' = [[27; 91; 77; 37; 34; 34]] ++ sent) /\
      GetMouseMode g1' = MouseModeVT200 /\
      CellWidth g1' = Float64.of_int 10 /\
      CellHeight g1' = Float64.of_int 20
  | Panic m1, Panic m2 => m1 = m2
  | _, _ => False
  end.
Proof.
  apply (callback_deterministic Float64.amd64 (gui_of MouseModeVT200 10 20)
           (Write (gui_of MouseModeVT200 10 20) [27; 91; 77; 37; 34; 34])
           (window_at 15 25) MouseButton2 Press ModShift);
    reflexivity.
Defined.

(** With an ASCII button parameter the packet starts with four fixed
    bytes. *)
Lemma Sprintf_packet_ascii_button (b x y : Z) :
  0 <= b <= 127 ->
  Fmt.Sprintf_packet b x y = [0x1B; 0x5B; 0x4D; b] ++ Fmt.fmtC x ++ Fmt.fmtC y.
Proof.
  intros H. unfold Fmt.Sprintf_packet. now rewrite fmtC_ascii by exact H.
Qed.

(** C6. In VT200 mode, for every modifier word and every event that is
    reported (a press of button 1, 2 or 3, or a release), the button byte of
    the packet is 32 plus the base code plus 4 if Shift is down, plus 8 if
    Meta (the Super bit) is down, plus 16 if Control is down, each of the
    three tested on its own, whatever the base code. *)
Theorem vt200_modifier_bits_add (u : Float64.float64 -> Z) (gui : GUI)
    (w : Window) (button action mods base : Z) (px py : Float64.float64) :
  GetMouseMode gui = MouseModeVT200 ->
  vt200_button button action = Some base ->
  GetCursorPos w = (px, py) ->
  let shift := if 0 <? Z.land mods ModShift then 4 else 0 in
  let meta := if 0 <? Z.land mods ModSuper then 8 else 0 in
  let control := if 0 <? Z.land mods ModControl then 16 else 0 in
  sends u gui w button action mods
    ([0x1B; 0x5B; 0x4D; base + shift + meta + control + 32]
       ++ Fmt.fmtC (param (cell u px (CellWidth gui)))
       ++ Fmt.fmtC (param (cell u py (CellHeight gui)))).
Proof.
  intros Hm Hb Hc shift meta control.
  pose proof (vt200_button_range _ _ _ Hb) as Hr.
  pose proof (vt200_modifiers_sum mods base Hr) as Hs.
  pose proof (vt200_modifiers_range mods base Hr) as Hrg.
  fold shift meta control in Hs.
  assert (Hp : button_param gui button action mods
               = Some (base + shift + meta + control + 32)).
  { unfold button_param. rewrite Hm, Hb, Hs. f_equal.
    rewrite <- Hs. unfold GoInt.byte.
    rewrite Z.mod_small by lia. apply rune_small. lia. }
  pose proof (callback_reports u gui w button action mods px py _ Hc Hp) as S.
  rewrite Sprintf_packet_ascii_button in S by (rewrite <- Hs; lia).
  exact S.
Qed.

(** The full chord on a release: 3 + 4 + 8 + 16 + 32 = 63. *)
Lemma vt200_modifier_bits_add_witness :
  sends Float64.amd64 (gui_of MouseModeVT200 10 20) (window_at 15 25)
    MouseButton3 Release (Z.lor ModShift (Z.lor ModSuper ModControl))
    [0x1B; 0x5B; 0x4D; 63; 34; 34].
Proof.
  apply (vt200_modifier_bits_add Float64.amd64 (gui_of MouseModeVT200 10 20)
           (window_at 15 25) MouseButton3 Release
           (Z.lor ModShift (Z.lor ModSuper ModControl)) 3
           (Float64.of_int 15) (Float64.of_int 25));
    reflexivity.
Defined.

(** C10. When a packet is sent (X10 or VT200) and the code point of its
    button, column or row parameter, value + 32 as the callback computes it,
    is 128 or more, the packet is longer than six bytes: [%c] writes such a
    code point as several bytes. *)
Theorem non_ascii_parameter_lengthens_packet (u : Float64.float64 -> Z)
    (gui : GUI) (w : Window) (button action mods b : Z)
    (px py : Float64.float64) :
  button_param gui button action mods = Some b ->
  GetCursorPos w = (px, py) ->
  128 <= b \/
  128 <= param (cell u px (CellWidth gui)) \/
  128 <= param (cell u py (CellHeight gui)) ->
  exists packet,
    sends u gui w button action mods packet /\
    (6 < List.length packet)%nat.
Proof.
  intros Hb Hc Hbig.
  eexists. split; [exact (callback_reports u gui w _ _ _ px py b Hc Hb) |].
  rewrite Sprintf_packet_length.
  pose proof (button_param_range _ _ _ _ _ Hb) as Rb.
  pose proof (param_range (cell u px (CellWidth gui))) as Rx.
  pose proof (param_range (cell u py (CellHeight gui))) as Ry.
  pose proof (fmtC_nonempty b).
  pose proof (fmtC_nonempty (param (cell u px (CellWidth gui)))).
  pose proof (fmtC_nonempty (param (cell u py (CellHeight gui)))).
  destruct Hbig as [H128 | [H128 | H128]].
  - pose proof (fmtC_long b). lia.
  - pose proof (fmtC_long (param (cell u px (CellWidth gui)))). lia.
  - pose proof (fmtC_long (param (cell u py (CellHeight gui)))). lia.
Qed.

Lemma non_ascii_parameter_lengthens_packet_witness :
  exists packet,
    sends Float64.amd64 (gui_of MouseModeX10 10 20) (window_at 955 25)
      MouseButton1 Press 0 packet /\
    (6 < List.length packet)%nat.
Proof.
  apply (non_ascii_parameter_lengthens_packet Float64.amd64
           (gui_of MouseModeX10 10 20) (window_at 955 25)
           MouseButton1 Press 0 32 (Float64.of_int 955) (Float64.of_int 25)).
  - reflexivity.
  - reflexivity.
  - right. left. vm_compute. discriminate.
Defined.

(** C2 (amended). In VT200 mode a press of button 1 without
    modifiers at column [c] and row [r], both from 1 to 223, sends ESC, '[',
    'M', 0x20 and then the UTF-8 encodings of the code points [c + 32] and
    [r + 32]: the single byte [v + 32] for a value up to 95, the two bytes
    [0xC0 | (v + 32) >> 6], [0x80 | (v + 32) & 0x3F] from 96 on. *)
Theorem vt200_press_button1_packet (u : Float64.float64 -> Z) (gui : GUI)
    (w : Window) (px py : Float64.float64) (c r : Z) :
  GetMouseMode gui = MouseModeVT200 ->
  GetCursorPos w = (px, py) ->
  cell u px (CellWidth gui) = c ->
  cell u py (CellHeight gui) = r ->
  1 <= c <= 223 -> 1 <= r <= 223 ->
  sends u gui w MouseButton1 Press 0
    ([0x1B; 0x5B; 0x4D; 0x20] ++ Fmt.fmtC (c + 32) ++ Fmt.fmtC (r + 32)) /\
  (forall v, 1 <= v <= 95 -> Fmt.fmtC (v + 32) = [v + 32]) /\
  (forall v, 96 <= v <= 223 ->
     Fmt.fmtC (v + 32)
     = [Z.lor 0xC0 ((v + 32) / 64); Z.lor 0x80 ((v + 32) mod 64)]).
Proof.
  intros Hm Hc Hx Hy Rc Rr. split; [| split].
  - assert (Hp : button_param gui MouseButton1 Press 0 = Some 0x20).
    { unfold button_param. rewrite Hm. reflexivity. }
    pose proof (callback_reports u gui w _ _ _ px py _ Hc Hp) as S.
    rewrite Hx, Hy in S.
    rewrite !param_small in S by lia.
    rewrite Sprintf_packet_ascii_button in S by lia.
    exact S.
  - intros v Hv. apply fmtC_ascii. lia.
  - intros v Hv. apply fmtC_two_bytes. lia.
Qed.

Lemma vt200_press_button1_packet_witness :
  sends Float64.amd64 (gui_of MouseModeVT200 10 20) (window_at 15 25)
    MouseButton1 Press 0 [0x1B; 0x5B; 0x4D; 0x20; 34; 34].
Proof.
  apply (vt200_press_button1_packet Float64.amd64
           (gui_of MouseModeVT200 10 20) (window_at 15 25)
           (Float64.of_int 15) (Float64.of_int 25) 2 2);
    try reflexivity; lia.
Defined.

(** C2, counterexample: at column 96 (pixel 955 in cells 10 wide) the
    packet has seven bytes; the column takes the two bytes 0xC2 0x80. *)
Lemma vt200_column_96_seven_bytes :
  cell Float64.amd64 (Float64.of_int 955) (Float64.of_int 10) = 96 /\
  cell Float64.amd64 (Float64.of_int 5) (Float64.of_int 20) = 1 /\
  sends Float64.amd64 (gui_of MouseModeVT200 10 20) (window_at 955 5)
    MouseButton1 Press 0 [0x1B; 0x5B; 0x4D; 0x20; 0xC2; 0x80; 0x21] /\
  ~ sends Float64.amd64 (gui_of MouseModeVT200 10 20) (window_at 955 5)
      MouseButton1 Press 0 [0x1B; 0x5B; 0x4D; 0x20; 96 + 32; 1 + 32].
Proof.
  split; [reflexivity | split; [reflexivity | split]].
  - eexists. split; [reflexivity |]. repeat split.
  - intros (g & Hg & Hw & _). vm_compute in Hg. injection Hg as <-.
    vm_compute in Hw. discriminate Hw.
Qed.

(** C5 (amended). In X10 mode every press is reported, whatever
    the button: the button parameter is the code point of the button's
    index plus 32, so the buttons 1 to 8 send the bytes 0x20 to 0x27. *)
Theorem x10_press_reports_any_button (u : Float64.float64 -> Z) (gui : GUI)
    (w : Window) (button mods : Z) (px py : Float64.float64) :
  GetMouseMode gui = MouseModeX10 ->
  GetCursorPos w = (px, py) ->
  sends u gui w button Press mods
    ([0x1B; 0x5B; 0x4D]
       ++ Fmt.fmtC (GoInt.rune (GoInt.rune button + 32))
       ++ Fmt.fmtC (param (cell u px (CellWidth gui)))
       ++ Fmt.fmtC (param (cell u py (CellHeight gui)))) /\
  (MouseButton1 <= button <= MouseButton8 ->
   Fmt.fmtC (GoInt.rune (GoInt.rune button + 32)) = [button + 32]).
Proof.
  intros Hm Hc. split.
  - apply (callback_reports u gui w button Press mods px py _ Hc).
    unfold button_param. rewrite Hm. reflexivity.
  - unfold MouseButton1, MouseButton8. intros Hb.
    rewrite (rune_small button) by lia. rewrite rune_small by lia.
    apply fmtC_ascii. lia.
Qed.

Lemma x10_press_reports_any_button_witness :
  sends Float64.amd64 (gui_of MouseModeX10 10 20) (window_at 15 25)
    MouseButton5 Press 0 [0x1B; 0x5B; 0x4D; 0x24; 34; 34].
Proof.
  apply (x10_press_reports_any_button Float64.amd64
           (gui_of MouseModeX10 10 20) (window_at 15 25) MouseButton5 0
           (Float64.of_int 15) (Float64.of_int 25));
    reflexivity.
Defined.

(** C5, counterexample: a press of button 4 in X10 mode is not dropped; the
    packet ESC [ M # " " goes out. *)
Lemma x10_press_button4_sends :
  sends Float64.amd64 (gui_of MouseModeX10 10 20) (window_at 15 25)
    MouseButton4 Press 0 [0x1B; 0x5B; 0x4D; 0x23; 0x22; 0x22] /\
  mouseButtonCallback Float64.amd64 (gui_of MouseModeX10 10 20)
    (window_at 15 25) MouseButton4 Press 0
  <> Return (gui_of MouseModeX10 10 20).
Proof.
  split.
  - eexists. split; [reflexivity |]. repeat split.
  - intros H. vm_compute in H. discriminate H.
Qed.

(** C3 (amended). Every reported event (a press in X10 mode; a
    press of button 1, 2 or 3 or a release in VT200 mode) sends its packet
    whatever column and row were computed: no error is raised for a large
    coordinate.  A column or row from 224 to 2015, whose value + 32 no longer
    fits in a byte, goes out as the two-byte UTF-8 encoding of that code
    point. *)
Theorem packet_sent_for_any_coordinates (u : Float64.float64 -> Z)
    (gui : GUI) (w : Window) (button action mods b : Z)
    (px py : Float64.float64) :
  button_param gui button action mods = Some b ->
  GetCursorPos w = (px, py) ->
  sends u gui w button action mods
    ([0x1B; 0x5B; 0x4D] ++ Fmt.fmtC b
       ++ Fmt.fmtC (param (cell u px (CellWidth gui)))
       ++ Fmt.fmtC (param (cell u py (CellHeight gui)))) /\
  (forall v, 224 <= v <= 2015 ->
     Fmt.fmtC (param v)
     = [Z.lor 0xC0 ((v + 32) / 64); Z.lor 0x80 ((v + 32) mod 64)]).
Proof.
  intros Hb Hc. split.
  - exact (callback_reports u gui w button action mods px py b Hc Hb).
  - intros v Hv. rewrite param_small by lia. apply fmtC_two_bytes. lia.
Qed.

Lemma packet_sent_for_any_coordinates_witness :
  sends Float64.amd64 (gui_of MouseModeVT200 10 20) (window_at 2235 25)
    MouseButton1 Release 0 [0x1B; 0x5B; 0x4D; 0x23; 0xC4; 0x80; 0x22].
Proof.
  apply (packet_sent_for_any_coordinates Float64.amd64
           (gui_of MouseModeVT200 10 20) (window_at 2235 25)
           MouseButton1 Release 0 35
           (Float64.of_int 2235) (Float64.of_int 25));
    reflexivity.
Defined.

(** C3, counterexample: column 224 (pixel 2235 in cells 10 wide) gives
    value + 32 = 256; the call returns normally and the packet is sent. *)
Lemma column_224_packet_sent :
  cell Float64.amd64 (Float64.of_int 2235) (Float64.of_int 10) = 224 /\
  255 < 224 + 32 /\
  sends Float64.amd64 (gui_of MouseModeVT200 10 20) (window_at 2235 5)
    MouseButton1 Press 0 [0x1B; 0x5B; 0x4D; 0x20; 0xC4; 0x80; 0x21].
Proof.
  split; [reflexivity | split; [lia |]].
  eexists. split; [reflexivity |]. repeat split.
Qed.

(** C4 (amended). Nothing is clamped.  For a reported event the
    column and row characters are those of [cell + 32] with
    [cell = floor(pixel / size) + 1] also left of or above the origin: for a
    negative pixel coordinate and a positive cell size (the quotient finite,
    its floor an [int]) the cell number is at most 0, and 1 only when the
    quotient underflows to minus zero. *)
Theorem negative_position_not_clamped (u : Float64.float64 -> Z)
    (gui : GUI) (w : Window) (button action mods b : Z)
    (px py : Float64.float64) :
  button_param gui button action mods = Some b ->
  GetCursorPos w = (px, py) ->
  sends u gui w button action mods
    (Fmt.Sprintf_packet b
       (param (cell u px (CellWidth gui)))
       (param (cell u py (CellHeight gui)))) /\
  (forall p size,
     Float64.negative p = true -> Float64.positive size = true ->
     Float64.is_finite (Float64.div p size) = true ->
     GoInt.MinInt64 <= Qfloor (Float64.to_Q (Float64.div p size)) ->
     cell u p size = Qfloor (Float64.to_Q (Float64.div p size)) + 1 /\
     (if Float64.is_zero (Float64.div p size)
      then cell u p size = 1 else cell u p size <= 0)).
Proof.
  intros Hb Hc. split.
  - exact (callback_reports u gui w button action mods px py b Hc Hb).
  - intros p size. apply cell_negative.
Qed.

Lemma negative_position_not_clamped_witness :
  sends Float64.amd64 (gui_of MouseModeVT200 10 20) (window_at (-15) 25)
    MouseButton1 Press 0 [0x1B; 0x5B; 0x4D; 0x20; 0x1F; 0x22].
Proof.
  apply (negative_position_not_clamped Float64.amd64
           (gui_of MouseModeVT200 10 20) (window_at (-15) 25)
           MouseButton1 Press 0 32
           (Float64.of_int (-15)) (Float64.of_int 25));
    reflexivity.
Defined.

(** C4, counterexample: pixel x = -5 in cells 10 wide is column 0, and the
    column byte of the packet is 0x20, not 0x21. *)
Lemma negative_pixel_column_zero :
  Float64.negative (Float64.of_int (-5)) = true /\
  cell Float64.amd64 (Float64.of_int (-5)) (Float64.of_int 10) = 0 /\
  sends Float64.amd64 (gui_of MouseModeVT200 10 20) (window_at (-5) 5)
    MouseButton1 Press 0 [0x1B; 0x5B; 0x4D; 0x20; 0x20; 0x21].
Proof.
  split; [reflexivity | split; [reflexivity |]].
  eexists. split; [reflexivity |]. repeat split.
Qed.

(** C8. For a reported event with the pointer at or right of and below the
    origin and positive cell metrics (the quotients finite, their floors
    below the largest [int]), the column and row sent are
    [floor(pixelX / cellWidth) + 1] and [floor(pixelY / cellHeight) + 1];
    both are at least 1, and both are exactly 1 at pixel (0, 0). *)
Theorem cell_of_pixel (u : Float64.float64 -> Z) (gui : GUI) (w : Window)
    (button action mods b : Z) (px py : Float64.float64) :
  button_param gui button action mods = Some b ->
  GetCursorPos w = (px, py) ->
  Float64.nonneg px = true -> Float64.nonneg py = true ->
  Float64.positive (CellWidth gui) = true ->
  Float64.positive (CellHeight gui) = true ->
  let qx := Float64.div px (CellWidth gui) in
  let qy := Float64.div py (CellHeight gui) in
  Float64.is_finite qx = true -> Float64.is_finite qy = true ->
  Qfloor (Float64.to_Q qx) < GoInt.MaxInt64 ->
  Qfloor (Float64.to_Q qy) < GoInt.MaxInt64 ->
  let column := Qfloor (Float64.to_Q qx) + 1 in
  let row := Qfloor (Float64.to_Q qy) + 1 in
  sends u gui w button action mods
    (Fmt.Sprintf_packet b (param column) (param row)) /\
  1 <= column /\ 1 <= row /\
  (Float64.is_zero px = true -> column = 1) /\
  (Float64.is_zero py = true -> row = 1).
Proof.
  intros Hb Hc Hpx Hpy Hcw Hch qx qy Fx Fy Rx Ry column row.
  destruct (cell_nonneg u px (CellWidth gui) Hpx Hcw Fx Rx) as [Ex Lx].
  destruct (cell_nonneg u py (CellHeight gui) Hpy Hch Fy Ry) as [Ey Ly].
  fold qx in Ex. fold qy in Ey. fold column in Ex. fold row in Ey.
  pose proof (callback_reports u gui w button action mods px py b Hc Hb) as S.
  rewrite Ex, Ey in S. rewrite Ex in Lx. rewrite Ey in Ly.
  repeat split; try assumption.
  - intros Z. destruct px; try discriminate.
    rewrite <- Ex. now apply cell_origin.
  - intros Z. destruct py; try discriminate.
    rewrite <- Ey. now apply cell_origin.
Qed.

(** The example of the specification: pixel (15, 25) in cells of 10 by 20
    is column 2, row 2. *)
Lemma cell_of_pixel_witness :
  sends Float64.amd64 (gui_of MouseModeVT200 10 20) (window_at 15 25)
    MouseButton2 Press ModShift (Fmt.Sprintf_packet 37 (param 2) (param 2)).
Proof.
  apply (cell_of_pixel Float64.amd64 (gui_of MouseModeVT200 10 20)
           (window_at 15 25) MouseButton2 Press ModShift 37
           (Float64.of_int 15) (Float64.of_int 25));
    reflexivity.
Defined.

(** * Further properties *)

(** ** Bytes of the UTF-8 forms, in arithmetic *)

(** Or-ing a value below [2 ^ k] under a multiple of [2 ^ k] adds it. *)
Lemma lor_high_low (h q k : Z) :
  0 <= k -> 0 <= q < 2 ^ k -> Z.lor (h * 2 ^ k) q = h * 2 ^ k + q.
Proof.
  intros Hk Hq.
  assert (D : Z.land (h * 2 ^ k) q = 0).
  { apply Z.bits_inj'. intros n Hn. rewrite Z.land_spec, Z.bits_0.
    destruct (Z_lt_le_dec n k) as [L | G].
    - now rewrite Z.mul_pow2_bits_low by exact L.
    - replace (Z.testbit q n) with false; [apply andb_false_r |].
      symmetry. apply Z.testbit_false; [exact Hn |].
      rewrite Z.div_small; [reflexivity |].
      split; [lia |]. apply Z.lt_le_trans with (2 ^ k); [lia |].
      apply Z.pow_le_mono_r; lia. }
  now rewrite <- (Z.lxor_lor _ _ D), <- (Z.add_nocarry_lxor _ _ D).
Qed.

Lemma land_maskx (z : Z) : Z.land (GoInt.byte z) Utf8.maskx = z mod 64.
Proof.
  unfold Utf8.maskx, GoInt.byte. change 0x3F with (Z.ones 6).
  rewrite Z.land_ones by lia. change (2 ^ 6) with 64.
  apply Z.mod_mod_divide. now exists 4.
Qed.

(** A continuation byte. *)
Lemma cont_byte (z : Z) :
  Z.lor Utf8.tx (Z.land (GoInt.byte z) Utf8.maskx) = 128 + z mod 64.
Proof.
  rewrite land_maskx. change Utf8.tx with (2 * 2 ^ 6).
  rewrite lor_high_low; [reflexivity | lia |].
  change (2 ^ 6) with 64. apply Z.mod_pos_bound. lia.
Qed.

(** A leading byte with [k] payload bits. *)
Lemma lead_byte (t h k z : Z) :
  t = h * 2 ^ k -> 0 <= k <= 8 -> 0 <= z < 2 ^ k ->
  Z.lor t (GoInt.byte z) = t + z.
Proof.
  intros -> Hk Hz. unfold GoInt.byte.
  assert (2 ^ k <= 2 ^ 8) by (apply Z.pow_le_mono_r; lia).
  rewrite Z.mod_small by lia. apply lor_high_low; lia.
Qed.

Lemma fmtC_valid_rune (r : Z) :
  Utf8.ValidRune r = true -> Fmt.fmtC r = Utf8.EncodeRune r.
Proof.
  unfold Utf8.ValidRune, Utf8.surrogateMin, Utf8.surrogateMax, Utf8.MaxRune.
  intros H.
  assert (R : 0 <= r <= 0x10FFFF).
  { destruct ((0 <=? r) && (r <? 55296)) eqn:A.
    - apply andb_prop in A. lia.
    - destruct ((57343 <? r) && (r <=? 1114111)) eqn:B; [| discriminate].
      apply andb_prop in B. lia. }
  unfold Fmt.fmtC, GoInt.uint64. rewrite (Z.mod_small r) by lia.
  replace (Utf8.MaxRune <? r) with false
    by (symmetry; apply Z.ltb_ge; unfold Utf8.MaxRune; lia).
  now rewrite rune_small by lia.
Qed.

(** The four forms of a valid code point. *)
Lemma fmtC_forms (r : Z) :
  Utf8.ValidRune r = true ->
  (0 <= r <= 0x7F /\ Fmt.fmtC r = [r]) \/
  (0x80 <= r <= 0x7FF /\ Fmt.fmtC r = [192 + r / 64; 128 + r mod 64]) \/
  (0x800 <= r <= 0xFFFF /\
   Fmt.fmtC r = [224 + r / 4096; 128 + (r / 64) mod 64; 128 + r mod 64]) \/
  (0x10000 <= r <= 0x10FFFF /\
   Fmt.fmtC r = [240 + r / 262144; 128 + (r / 4096) mod 64;
                 128 + (r / 64) mod 64; 128 + r mod 64]).
Proof.
  intros V. rewrite (fmtC_valid_rune r V).
  unfold Utf8.ValidRune, Utf8.surrogateMin, Utf8.surrogateMax, Utf8.MaxRune in V.
  assert (R : 0 <= r < 0xD800 \/ 0xDFFF < r <= 0x10FFFF).
  { destruct ((0 <=? r) && (r <? 55296)) eqn:A.
    - apply andb_prop in A. lia.
    - destruct ((57343 <? r) && (r <=? 1114111)) eqn:B; [| discriminate].
      apply andb_prop in B. lia. }
  clear V.
  unfold Utf8.EncodeRune, Utf8.enc3, GoInt.uint32.
  rewrite (Z.mod_small r) by lia.
  unfold Utf8.rune1Max, Utf8.rune2Max, Utf8.rune3Max, Utf8.MaxRune,
    Utf8.surrogateMin, Utf8.surrogateMax.
  rewrite !cont_byte, !Z.shiftr_div_pow2 by lia.
  change (2 ^ 6) with 64. change (2 ^ 12) with 4096. change (2 ^ 18) with 262144.
  destruct (r <=? 127) eqn:E1.
  { apply Z.leb_le in E1. left. split; [lia |].
    unfold GoInt.byte. now rewrite Z.mod_small by lia. }
  apply Z.leb_gt in E1. right.
  destruct (r <=? 2047) eqn:E2.
  { apply Z.leb_le in E2. left. split; [lia |]. f_equal.
    apply (lead_byte Utf8.t2 6 5); [reflexivity | lia |].
    split; [apply Z.div_pos; lia | apply Z.div_lt_upper_bound; lia]. }
  apply Z.leb_gt in E2. right.
  replace ((1114111 <? r) || (55296 <=? r) && (r <=? 57343)) with false.
  2:{ symmetry. apply orb_false_intro; [apply Z.ltb_ge; lia |].
      destruct (55296 <=? r) eqn:A; [| reflexivity].
      apply Z.leb_le in A. apply Z.leb_gt. lia. }
  destruct (r <=? 65535) eqn:E3.
  { apply Z.leb_le in E3. left. split; [lia |]. f_equal.
    apply (lead_byte Utf8.t3 14 4); [reflexivity | lia |].
    split; [apply Z.div_pos; lia | apply Z.div_lt_upper_bound; lia]. }
  apply Z.leb_gt in E3. right. split; [lia |]. f_equal.
  apply (lead_byte Utf8.t4 30 3); [reflexivity | lia |].
  split; [apply Z.div_pos; lia | apply Z.div_lt_upper_bound; lia].
Qed.

Lemma cons_eq_inv (A : Type) (a b : A) (l m : list A) :
  a :: l = b :: m -> a = b /\ l = m.
Proof. intros H. now injection H. Qed.

Ltac split_cons :=
  repeat match goal with
         | H : _ :: _ = _ :: _ |- _ =>
             apply cons_eq_inv in H; destruct H as [? H]
         end.

(** The encodings of valid code points are prefix-free and injective: the
    first code point of a byte string can be read back in one way only. *)
Lemma fmtC_prefix_injective (r1 r2 : Z) (t1 t2 : list Z) :
  Utf8.ValidRune r1 = true -> Utf8.ValidRune r2 = true ->
  Fmt.fmtC r1 ++ t1 = Fmt.fmtC r2 ++ t2 -> r1 = r2 /\ t1 = t2.
Proof.
  intros V1 V2.
  destruct (fmtC_forms r1 V1) as [[R1 ->] | [[R1 ->] | [[R1 ->] | [R1 ->]]]];
  destruct (fmtC_forms r2 V2) as [[R2 ->] | [[R2 ->] | [[R2 ->] | [R2 ->]]]];
    cbn [app]; intros E; split_cons;
    (split; [Z.div_mod_to_equations; lia | try assumption]);
    exfalso; Z.div_mod_to_equations; lia.
Qed.

(** ** More on [%c] *)

Lemma fmtC_replacement (v : Z) :
  - 2 ^ 31 <= v < 2 ^ 31 -> Utf8.ValidRune v = false ->
  Fmt.fmtC v = [0xEF; 0xBF; 0xBD].
Proof.
  intros R V. unfold Fmt.fmtC, GoInt.uint64.
  destruct (Z_lt_le_dec v 0) as [N | P].
  - replace (v mod 2 ^ 64) with (v + 2 ^ 64).
    2:{ symmetry. rewrite <- (Z.mod_add v 1 (2 ^ 64)) by lia.
        rewrite Z.mul_1_l. apply Z.mod_small. lia. }
    replace (Utf8.MaxRune <? v + 2 ^ 64) with true; [reflexivity |].
    symmetry. apply Z.ltb_lt. unfold Utf8.MaxRune. lia.
  - rewrite (Z.mod_small v) by lia.
    destruct (Utf8.MaxRune <? v) eqn:M; [reflexivity |].
    apply Z.ltb_ge in M. unfold Utf8.MaxRune in M.
    rewrite rune_small by lia.
    unfold Utf8.ValidRune, Utf8.surrogateMin, Utf8.surrogateMax,
      Utf8.MaxRune in V.
    assert (S : 0xD800 <= v <= 0xDFFF).
    { destruct ((0 <=? v) && (v <? 55296)) eqn:A; [discriminate |].
      destruct ((57343 <? v) && (v <=? 1114111)) eqn:B; [discriminate |].
      apply andb_false_iff in A. apply andb_false_iff in B.
      rewrite Z.leb_gt, Z.ltb_ge in A. rewrite Z.ltb_ge, Z.leb_gt in B. lia. }
    unfold Utf8.EncodeRune, GoInt.uint32. rewrite (Z.mod_small v) by lia.
    unfold Utf8.rune1Max, Utf8.rune2Max, Utf8.MaxRune, Utf8.surrogateMin,
      Utf8.surrogateMax.
    replace (v <=? 127) with false by (symmetry; apply Z.leb_gt; lia).
    replace (v <=? 2047) with false by (symmetry; apply Z.leb_gt; lia).
    replace (55296 <=? v) with true by (symmetry; apply Z.leb_le; lia).
    replace (v <=? 57343) with true by (symmetry; apply Z.leb_le; lia).
    rewrite orb_true_r. reflexivity.
Qed.

(** One byte exactly for the ASCII code points, among the [int32] values. *)
Lemma fmtC_length_1 (v : Z) :
  - 2 ^ 31 <= v < 2 ^ 31 ->
  (List.length (Fmt.fmtC v) = 1%nat <-> 0 <= v <= 127).
Proof.
  intros R. split.
  - intros L. destruct (Z_lt_le_dec v 0) as [N | P].
    + rewrite fmtC_replacement in L; [discriminate | lia |].
      unfold Utf8.ValidRune.
      replace (0 <=? v) with false by (symmetry; apply Z.leb_gt; lia).
      replace (Utf8.surrogateMax <? v) with false; [reflexivity |].
      symmetry. apply Z.ltb_ge. unfold Utf8.surrogateMax. lia.
    + destruct (Z_le_gt_dec v 127) as [A | B]; [lia |].
      pose proof (fmtC_long v). lia.
  - intros A. now rewrite fmtC_ascii.
Qed.

Lemma lor_byte (a b : Z) :
  0 <= a < 256 -> 0 <= b < 256 -> 0 <= Z.lor a b < 256.
Proof.
  intros Ha Hb.
  assert (N : 0 <= Z.lor a b) by (apply Z.lor_nonneg; lia).
  split; [exact N |].
  destruct (Z.eq_dec (Z.lor a b) 0) as [-> | NZ]; [lia |].
  change 256 with (2 ^ 8). apply Z.log2_lt_pow2; [lia |].
  rewrite Z.log2_lor by lia.
  assert (L : forall c, 0 <= c < 256 -> Z.log2 c < 8).
  { intros c Hc. destruct (Z.eq_dec c 0) as [-> | Hz]; [cbn; lia |].
    apply Z.log2_lt_pow2; lia. }
  pose proof (L a Ha). pose proof (L b Hb). lia.
Qed.

Lemma byte_range (z : Z) : 0 <= GoInt.byte z < 256.
Proof. unfold GoInt.byte. apply Z.mod_pos_bound. lia. Qed.

(** [EncodeRune] writes one to four bytes, each from 0 to 255. *)
Lemma EncodeRune_bytes (r : Z) :
  Forall (fun c => 0 <= c <= 255) (Utf8.EncodeRune r) /\
  (1 <= List.length (Utf8.EncodeRune r) <= 4)%nat.
Proof.
  assert (C : forall z, 0 <= Z.lor Utf8.tx (Z.land (GoInt.byte z) Utf8.maskx) <= 255).
  { intros z. rewrite cont_byte. pose proof (Z.mod_pos_bound z 64). lia. }
  assert (L : forall t z, 0 <= t < 256 -> 0 <= Z.lor t (GoInt.byte z) <= 255).
  { intros t z Ht. pose proof (lor_byte t (GoInt.byte z) Ht (byte_range z)). lia. }
  assert (B : forall z, 0 <= GoInt.byte z <= 255).
  { intros z. pose proof (byte_range z). lia. }
  unfold Utf8.EncodeRune, Utf8.enc3. split_ifs; split;
    repeat constructor; cbn [List.length];
    try apply C; try apply B;
    try (apply L; unfold Utf8.t2, Utf8.t3, Utf8.t4; lia); lia.
Qed.

Lemma fmtC_bytes (v : Z) :
  Forall (fun c => 0 <= c <= 255) (Fmt.fmtC v) /\
  (1 <= List.length (Fmt.fmtC v) <= 4)%nat.
Proof. unfold Fmt.fmtC. apply EncodeRune_bytes. Qed.

(** ** More on the callback *)

Section Outcome.

Variable u : Float64.float64 -> Z.

Lemma sends_unique (gui : GUI) (w : Window) (button action mods : Z)
    (p q : list Z) :
  sends u gui w button action mods p -> sends u gui w button action mods q ->
  p = q.
Proof.
  intros (g1 & E1 & W1 & _) (g2 & E2 & W2 & _).
  rewrite E1 in E2. injection E2 as <-. rewrite W1 in W2.
  apply app_inv_head in W2. now injection W2.
Qed.

Lemma Write_changes (gui : GUI) (data : list Z) : Write gui data <> gui.
Proof.
  intros H. apply (f_equal written) in H. cbn [Write written] in H.
  apply (f_equal (@List.length _)) in H. rewrite length_app in H.
  cbn [List.length] in H. lia.
Qed.

Lemma Write_Infof_changes (gui : GUI) (line data : list Z) :
  Write (Infof_packet gui line) data <> gui.
Proof.
  intros H. apply (f_equal written) in H.
  cbn [Write Infof_packet written] in H.
  apply (f_equal (@List.length _)) in H. rewrite length_app in H.
  cbn [List.length] in H. lia.
Qed.

Lemma vt200_button_spec (button action : Z) :
  vt200_button button action = None <->
  action <> Release /\
  (action <> Press \/
   (button <> MouseButton1 /\ button <> MouseButton2 /\ button <> MouseButton3)).
Proof.
  unfold vt200_button, Press, Release, MouseButton1, MouseButton2, MouseButton3.
  destruct (action =? 1) eqn:A; [apply Z.eqb_eq in A | apply Z.eqb_neq in A].
  - destruct (button =? 0) eqn:B0; [apply Z.eqb_eq in B0 | apply Z.eqb_neq in B0].
    { split; [discriminate | lia]. }
    destruct (button =? 1) eqn:B1; [apply Z.eqb_eq in B1 | apply Z.eqb_neq in B1].
    { split; [discriminate | lia]. }
    destruct (button =? 2) eqn:B2; [apply Z.eqb_eq in B2 | apply Z.eqb_neq in B2].
    { split; [discriminate | lia]. }
    split; [lia | reflexivity].
  - destruct (action =? 0) eqn:R; [apply Z.eqb_eq in R | apply Z.eqb_neq in R].
    + split; [discriminate | lia].
    + split; [lia | reflexivity].
Qed.

End Outcome.

(** X1. Two reported events whose button code points are valid and whose
    columns and rows lie from -32 to 55263 (code points below the
    surrogates) send the same packet only if they agree on the button code
    point, the column and the row: the packet can be read back. *)
Theorem packet_unique_decoding (u : Float64.float64 -> Z)
    (gui1 gui2 : GUI) (w1 w2 : Window)
    (button1 action1 mods1 button2 action2 mods2 b1 b2 : Z)
    (px1 py1 px2 py2 : Float64.float64) (packet : list Z) :
  button_param gui1 button1 action1 mods1 = Some b1 ->
  button_param gui2 button2 action2 mods2 = Some b2 ->
  GetCursorPos w1 = (px1, py1) -> GetCursorPos w2 = (px2, py2) ->
  Utf8.ValidRune b1 = true -> Utf8.ValidRune b2 = true ->
  let x1 := cell u px1 (CellWidth gui1) in
  let y1 := cell u py1 (CellHeight gui1) in
  let x2 := cell u px2 (CellWidth gui2) in
  let y2 := cell u py2 (CellHeight gui2) in
  (forall v, In v [x1; y1; x2; y2] -> 0 <= v + 32 < 0xD800) ->
  sends u gui1 w1 button1 action1 mods1 packet ->
  sends u gui2 w2 button2 action2 mods2 packet ->
  b1 = b2 /\ x1 = x2 /\ y1 = y2.
Proof.
  intros Hb1 Hb2 Hc1 Hc2 V1 V2 x1 y1 x2 y2 R S1 S2.
  pose proof (callback_reports u gui1 w1 _ _ _ px1 py1 b1 Hc1 Hb1) as T1.
  pose proof (callback_reports u gui2 w2 _ _ _ px2 py2 b2 Hc2 Hb2) as T2.
  fold x1 y1 in T1. fold x2 y2 in T2.
  pose proof (sends_unique u _ _ _ _ _ _ _ S1 T1) as E1.
  pose proof (sends_unique u _ _ _ _ _ _ _ S2 T2) as E2.
  rewrite E1 in E2. clear S1 S2 T1 T2 E1.
  assert (P : forall v, In v [x1; y1; x2; y2] ->
                param v = v + 32 /\ Utf8.ValidRune (v + 32) = true).
  { intros v Hv. specialize (R v Hv). split; [apply param_small; lia |].
    unfold Utf8.ValidRune, Utf8.surrogateMin.
    replace ((0 <=? v + 32) && (v + 32 <? 55296)) with true; [reflexivity |].
    symmetry. apply andb_true_intro. rewrite Z.leb_le, Z.ltb_lt. lia. }
  destruct (P x1) as [Px1 Vx1]; [cbn; auto |].
  destruct (P y1) as [Py1 Vy1]; [cbn; auto |].
  destruct (P x2) as [Px2 Vx2]; [cbn; auto |].
  destruct (P y2) as [Py2 Vy2]; [cbn; auto |].
  rewrite Px1, Py1, Px2, Py2 in E2. clear P R Px1 Py1 Px2 Py2.
  clearbody x1 y1 x2 y2. rename E2 into E.
  unfold Fmt.Sprintf_packet in E. apply app_inv_head in E.
  apply fmtC_prefix_injective in E; [| assumption | assumption].
  destruct E as [Eb E].
  apply fmtC_prefix_injective in E; [| assumption | assumption].
  destruct E as [Ex E].
  rewrite <- (app_nil_r (Fmt.fmtC (y1 + 32))) in E.
  rewrite <- (app_nil_r (Fmt.fmtC (y2 + 32))) in E.
  apply fmtC_prefix_injective in E; [| assumption | assumption].
  destruct E as [Ey _]. repeat split; lia.
Qed.

(** A Shift press of button 2 in VT200 mode and a press of button 6 in X10
    mode, in the same cell, send the same bytes. *)
Lemma packet_unique_decoding_witness :
  37 = 37 /\
  cell Float64.amd64 (Float64.of_int 15) (Float64.of_int 10)
  = cell Float64.amd64 (Float64.of_int 7) (Float64.of_int 5) /\
  cell Float64.amd64 (Float64.of_int 25) (Float64.of_int 20)
  = cell Float64.amd64 (Float64.of_int 8) (Float64.of_int 5).
Proof.
  apply (packet_unique_decoding Float64.amd64
           (gui_of MouseModeVT200 10 20) (gui_of MouseModeX10 5 5)
           (window_at 15 25) (window_at 7 8)
           MouseButton2 Press ModShift MouseButton6 Press 0 37 37
           (Float64.of_int 15) (Float64.of_int 25)
           (Float64.of_int 7) (Float64.of_int 8)
           [0x1B; 0x5B; 0x4D; 37; 34; 34]);
    try reflexivity.
  - intros v [<- | [<- | [<- | [<- | []]]]]; vm_compute;
      (split; [discriminate | reflexivity]).
  - eexists. split; [reflexivity |]. repeat split.
  - eexists. split; [reflexivity |]. repeat split.
Defined.

(** X2. The packet of a reported event has exactly six bytes if and only if
    its three code points (button, column + 32, row + 32, as passed to
    [%c]) are all from 0 to 127. *)
Theorem six_bytes_iff_ascii (u : Float64.float64 -> Z) (gui : GUI)
    (w : Window) (button action mods b : Z) (px py : Float64.float64)
    (packet : list Z) :
  button_param gui button action mods = Some b ->
  GetCursorPos w = (px, py) ->
  sends u gui w button action mods packet ->
  (List.length packet = 6%nat <->
   0 <= b <= 127 /\
   0 <= param (cell u px (CellWidth gui)) <= 127 /\
   0 <= param (cell u py (CellHeight gui)) <= 127).
Proof.
  intros Hb Hc S.
  pose proof (callback_reports u gui w _ _ _ px py b Hc Hb) as T.
  rewrite (sends_unique u _ _ _ _ _ _ _ S T). clear S T.
  rewrite Sprintf_packet_length.
  pose proof (button_param_range _ _ _ _ _ Hb) as Rb.
  pose proof (param_range (cell u px (CellWidth gui))) as Rx.
  pose proof (param_range (cell u py (CellHeight gui))) as Ry.
  pose proof (fmtC_length_1 _ Rb) as Lb.
  pose proof (fmtC_length_1 _ Rx) as Lx.
  pose proof (fmtC_length_1 _ Ry) as Ly.
  pose proof (fmtC_nonempty b).
  pose proof (fmtC_nonempty (param (cell u px (CellWidth gui)))).
  pose proof (fmtC_nonempty (param (cell u py (CellHeight gui)))).
  split.
  - intros L. repeat split;
      first [apply Lb | apply Lx | apply Ly]; lia.
  - intros (A & B & C).
    apply Lb in A. apply Lx in B. apply Ly in C. lia.
Qed.

Lemma six_bytes_iff_ascii_witness :
  List.length [0x1B; 0x5B; 0x4D; 0x20; 0xC2; 0x80; 0x22] = 6%nat <->
  0 <= 32 <= 127 /\
  0 <= param (cell Float64.amd64 (Float64.of_int 955) (Float64.of_int 10)) <= 127 /\
  0 <= param (cell Float64.amd64 (Float64.of_int 25) (Float64.of_int 20)) <= 127.
Proof.
  apply (six_bytes_iff_ascii Float64.amd64 (gui_of MouseModeVT200 10 20)
           (window_at 955 25) MouseButton1 Press 0 32
           (Float64.of_int 955) (Float64.of_int 25)).
  - reflexivity.
  - reflexivity.
  - eexists. split; [reflexivity |]. repeat split.
Defined.

(** X3. In VT200 mode the button byte of a reported event can be taken
    apart again: it is 32 plus a code from 0 to 31 whose low two bits are
    the base code (0, 1, 2 for the buttons, 3 for a release) and whose bits
    2, 3 and 4 tell whether Shift, Super and Control were down. *)
Theorem vt200_button_byte_decodes (u : Float64.float64 -> Z) (gui : GUI)
    (w : Window) (button action mods base : Z) (px py : Float64.float64) :
  GetMouseMode gui = MouseModeVT200 ->
  vt200_button button action = Some base ->
  GetCursorPos w = (px, py) ->
  exists code,
    sends u gui w button action mods
      ([0x1B; 0x5B; 0x4D; code + 32]
         ++ Fmt.fmtC (param (cell u px (CellWidth gui)))
         ++ Fmt.fmtC (param (cell u py (CellHeight gui)))) /\
    0 <= code <= 31 /\
    code mod 4 = base /\
    Z.testbit code 2 = (0 <? Z.land mods ModShift) /\
    Z.testbit code 3 = (0 <? Z.land mods ModSuper) /\
    Z.testbit code 4 = (0 <? Z.land mods ModControl).
Proof.
  intros Hm Hb Hc.
  pose proof (vt200_button_range _ _ _ Hb) as Hr.
  pose proof (vt200_modifiers_sum mods base Hr) as Hs.
  pose proof (vt200_modifiers_range mods base Hr) as Hrg.
  exists (vt200_modifiers mods base). split.
  - assert (Hp : button_param gui button action mods
                 = Some (vt200_modifiers mods base + 32)).
    { unfold button_param. rewrite Hm, Hb. f_equal. unfold GoInt.byte.
      rewrite Z.mod_small by lia. apply rune_small. lia. }
    pose proof (callback_reports u gui w button action mods px py _ Hc Hp) as S.
    rewrite Sprintf_packet_ascii_button in S by lia. exact S.
  - split; [exact Hrg |]. rewrite Hs.
    assert (C : base = 0 \/ base = 1 \/ base = 2 \/ base = 3) by lia.
    destruct (0 <? Z.land mods ModShift), (0 <? Z.land mods ModSuper),
             (0 <? Z.land mods ModControl);
      destruct C as [-> | [-> | [-> | ->]]]; repeat split; reflexivity.
Qed.

Lemma vt200_button_byte_decodes_witness :
  exists code,
    sends Float64.amd64 (gui_of MouseModeVT200 10 20) (window_at 15 25)
      MouseButton2 Press (Z.lor ModShift ModControl)
      ([0x1B; 0x5B; 0x4D; code + 32]
         ++ Fmt.fmtC (param (cell Float64.amd64 (Float64.of_int 15) (Float64.of_int 10)))
         ++ Fmt.fmtC (param (cell Float64.amd64 (Float64.of_int 25) (Float64.of_int 20)))) /\
    0 <= code <= 31 /\
    code mod 4 = 1 /\
    Z.testbit code 2 = true /\
    Z.testbit code 3 = false /\
    Z.testbit code 4 = true.
Proof.
  apply (vt200_button_byte_decodes Float64.amd64 (gui_of MouseModeVT200 10 20)
           (window_at 15 25) MouseButton2 Press (Z.lor ModShift ModControl) 1
           (Float64.of_int 15) (Float64.of_int 25));
    reflexivity.
Defined.

(** X4. A release does not tell which button was released: in every mode
    the outcome of the callback on a release is the same for any two
    buttons. *)
Theorem release_ignores_button (u : Float64.float64 -> Z) (gui : GUI)
    (w : Window) (button1 button2 mods : Z) :
  mouseButtonCallback u gui w button1 Release mods
  = mouseButtonCallback u gui w button2 Release mods.
Proof.
  unfold mouseButtonCallback. destruct (GetMouseMode gui); reflexivity.
Qed.

(** X5. In X10 mode the modifier keys have no effect on the outcome. *)
Theorem x10_ignores_modifiers (u : Float64.float64 -> Z) (gui : GUI)
    (w : Window) (button action mods1 mods2 : Z) :
  GetMouseMode gui = MouseModeX10 ->
  mouseButtonCallback u gui w button action mods1
  = mouseButtonCallback u gui w button action mods2.
Proof.
  intros H. unfold mouseButtonCallback. now rewrite H.
Qed.

Lemma x10_ignores_modifiers_witness :
  mouseButtonCallback Float64.amd64 (gui_of MouseModeX10 10 20)
    (window_at 15 25) MouseButton1 Press 0
  = mouseButtonCallback Float64.amd64 (gui_of MouseModeX10 10 20)
      (window_at 15 25) MouseButton1 Press
      (Z.lor ModShift (Z.lor ModSuper ModControl)).
Proof.
  apply (x10_ignores_modifiers Float64.amd64 (gui_of MouseModeX10 10 20)
           (window_at 15 25) MouseButton1 Press 0
           (Z.lor ModShift (Z.lor ModSuper ModControl))).
  reflexivity.
Defined.

Lemma or_modifier_masked (mods key bit b : Z) :
  Z.land (Z.lor ModShift (Z.lor ModControl ModSuper)) key = key ->
  or_modifier (Z.land mods (Z.lor ModShift (Z.lor ModControl ModSuper))) key bit b
  = or_modifier mods key bit b.
Proof.
  intros H. unfold or_modifier. now rewrite <- Z.land_assoc, H.
Qed.

(** X6. Only the Shift, Control and Super bits of the modifier word are
    looked at: Alt and any other bit may be set or cleared without changing
    the outcome, in every mode. *)
Theorem other_modifier_bits_ignored (u : Float64.float64 -> Z) (gui : GUI)
    (w : Window) (button action mods : Z) :
  mouseButtonCallback u gui w button action
    (Z.land mods (Z.lor ModShift (Z.lor ModControl ModSuper)))
  = mouseButtonCallback u gui w button action mods.
Proof.
  unfold mouseButtonCallback.
  destruct (GetMouseMode gui); try reflexivity.
  destruct (vt200_button button action) as [b0 |]; [| reflexivity].
  unfold vt200_modifiers. now rewrite !or_modifier_masked by reflexivity.
Qed.

(** X7. Which events are dropped.  In X10 mode the state comes back
    unchanged exactly for the actions other than a press; in VT200 mode
    exactly for the events that are neither a release nor a press of button
    1, 2 or 3. *)
Theorem dropped_events (u : Float64.float64 -> Z) (gui : GUI) (w : Window)
    (button action mods : Z) :
  (GetMouseMode gui = MouseModeX10 ->
   (mouseButtonCallback u gui w button action mods = Return gui <->
    action <> Press)) /\
  (GetMouseMode gui = MouseModeVT200 ->
   (mouseButtonCallback u gui w button action mods = Return gui <->
    action <> Release /\
    (action <> Press \/
     (button <> MouseButton1 /\ button <> MouseButton2 /\
      button <> MouseButton3)))).
Proof.
  unfold mouseButtonCallback. split; intros ->.
  - destruct (action =? Press) eqn:A;
      [apply Z.eqb_eq in A | apply Z.eqb_neq in A].
    + destruct (GetCursorPos w) as [px py]. split; [| intros N; contradiction].
      intros H. injection H as H. now apply Write_changes in H.
    + split; [intros _; exact A | reflexivity].
  - rewrite <- vt200_button_spec.
    destruct (vt200_button button action) as [b0 |].
    + destruct (GetCursorPos w) as [px py]. split; [| discriminate].
      intros H. injection H as H. now apply Write_Infof_changes in H.
    + split; reflexivity.
Qed.

Lemma dropped_events_witness :
  mouseButtonCallback Float64.amd64 (gui_of MouseModeVT200 10 20)
    (window_at 15 25) MouseButton4 Press 0
  = Return (gui_of MouseModeVT200 10 20) <->
  Press <> Release /\
  (Press <> Press \/
   (MouseButton4 <> MouseButton1 /\ MouseButton4 <> MouseButton2 /\
    MouseButton4 <> MouseButton3)).
Proof.
  apply (dropped_events Float64.amd64 (gui_of MouseModeVT200 10 20)
           (window_at 15 25) MouseButton4 Press 0).
  reflexivity.
Defined.

(** X8. The callback panics exactly when the mode is none of None, X10 and
    VT200; in those three modes no event, pointer position or cell size
    makes it panic. *)
Theorem panics_iff_unhandled_mode (u : Float64.float64 -> Z) (gui : GUI)
    (w : Window) (button action mods : Z) :
  (exists msg, mouseButtonCallback u gui w button action mods = Panic msg) <->
  GetMouseMode gui <> MouseModeNone /\
  GetMouseMode gui <> MouseModeX10 /\
  GetMouseMode gui <> MouseModeVT200.
Proof.
  unfold mouseButtonCallback.
  destruct (GetMouseMode gui) eqn:M.
  - split; [intros [msg H]; discriminate | intros (N & _); now contradiction N].
  - split; [| intros (_ & N & _); now contradiction N].
    intros [msg H]. destruct (action =? Press); [| discriminate].
    destruct (GetCursorPos w). discriminate.
  - split; [| intros (_ & _ & N); now contradiction N].
    intros [msg H]. destruct (vt200_button button action); [| discriminate].
    destruct (GetCursorPos w). discriminate.
  - split; [intros _; repeat split; discriminate | intros _; eexists; reflexivity].
  - split; [intros _; repeat split; discriminate | intros _; eexists; reflexivity].
  - split; [intros _; repeat split; discriminate | intros _; eexists; reflexivity].
  - split; [intros _; repeat split; discriminate | intros _; eexists; reflexivity].
Qed.

(** X9. In VT200 mode every packet is logged before it is written: a call
    that returns either changed nothing or appended one packet to the
    terminal input and the line "Sending mouse packet: '<packet>'" to the
    log.  In X10 mode nothing is ever logged. *)
Theorem vt200_logs_each_packet (u : Float64.float64 -> Z) (gui gui' : GUI)
    (w : Window) (button action mods : Z) :
  mouseButtonCallback u gui w button action mods = Return gui' ->
  (GetMouseMode gui = MouseModeVT200 ->
   gui' = gui \/
   exists packet,
     written gui' = written gui ++ [packet] /\
     logged gui' = logged gui ++
       [bytes_of_string "Sending mouse packet: '" ++ packet
          ++ bytes_of_string "'"]) /\
  (GetMouseMode gui = MouseModeX10 -> logged gui' = logged gui).
Proof.
  unfold mouseButtonCallback. intros H. split; intros M; rewrite M in H.
  - destruct (vt200_button button action) as [b0 |].
    + destruct (GetCursorPos w) as [px py]. injection H as <-.
      right. eexists. split; reflexivity.
    + injection H as <-. now left.
  - destruct (action =? Press).
    + destruct (GetCursorPos w) as [px py]. injection H as <-. reflexivity.
    + injection H as <-. reflexivity.
Qed.

Lemma vt200_logs_each_packet_witness :
  let gui := gui_of MouseModeVT200 10 20 in
  let p := [0x1B; 0x5B; 0x4D; 0x21; 0x22; 0x22] in
  let gui' := Write (Infof_packet gui p) p in
  gui' = gui \/
  exists packet,
    written gui' = written gui ++ [packet] /\
    logged gui' = logged gui ++
      [bytes_of_string "Sending mouse packet: '" ++ packet
         ++ bytes_of_string "'"].
Proof.
  apply (vt200_logs_each_packet Float64.amd64 (gui_of MouseModeVT200 10 20)
           (Write (Infof_packet (gui_of MouseModeVT200 10 20)
                     [0x1B; 0x5B; 0x4D; 0x21; 0x22; 0x22])
              [0x1B; 0x5B; 0x4D; 0x21; 0x22; 0x22])
           (window_at 15 25) MouseButton2 Press 0);
    reflexivity.
Defined.

(** X10. A column or row whose value + 32 is not a Unicode scalar value
    (negative, a surrogate, or above 0x10FFFF) is sent as the three bytes
    EF BF BD of U+FFFD: so is every column below -32. *)
Theorem invalid_coordinate_replacement_char (u : Float64.float64 -> Z)
    (gui : GUI) (w : Window) (button action mods b : Z)
    (px py : Float64.float64) :
  button_param gui button action mods = Some b ->
  GetCursorPos w = (px, py) ->
  let x := cell u px (CellWidth gui) in
  let y := cell u py (CellHeight gui) in
  - 2 ^ 31 <= x + 32 < 2 ^ 31 ->
  Utf8.ValidRune (x + 32) = false ->
  sends u gui w button action mods
    ([0x1B; 0x5B; 0x4D] ++ Fmt.fmtC b ++ [0xEF; 0xBF; 0xBD]
       ++ Fmt.fmtC (param y)) /\
  (forall v, - 2 ^ 31 <= v + 32 < 0 -> Utf8.ValidRune (v + 32) = false).
Proof.
  intros Hb Hc x y R V. split.
  - pose proof (callback_reports u gui w _ _ _ px py b Hc Hb) as S.
    fold x y in S. unfold Fmt.Sprintf_packet in S.
    rewrite (param_small x R) in S.
    rewrite (fmtC_replacement (x + 32) R V) in S. exact S.
  - intros v Hv. unfold Utf8.ValidRune.
    replace (0 <=? v + 32) with false by (symmetry; apply Z.leb_gt; lia).
    replace (Utf8.surrogateMax <? v + 32) with false; [reflexivity |].
    symmetry. apply Z.ltb_ge. unfold Utf8.surrogateMax. lia.
Qed.

Lemma invalid_coordinate_replacement_char_witness :
  sends Float64.amd64 (gui_of MouseModeVT200 10 20) (window_at (-335) 25)
    MouseButton1 Press 0
    [0x1B; 0x5B; 0x4D; 0x20; 0xEF; 0xBF; 0xBD; 0x22].
Proof.
  apply (invalid_coordinate_replacement_char Float64.amd64
           (gui_of MouseModeVT200 10 20) (window_at (-335) 25)
           MouseButton1 Press 0 32
           (Float64.of_int (-335)) (Float64.of_int 25));
    try reflexivity.
  vm_compute. split; [discriminate | reflexivity].
Defined.

(** X11. Every packet starts with ESC [ M, has from 6 to 15 bytes, and
    holds nothing but byte values (0 to 255). *)
Theorem packet_shape (u : Float64.float64 -> Z) (gui : GUI) (w : Window)
    (button action mods : Z) (packet : list Z) :
  sends u gui w button action mods packet ->
  firstn 3 packet = [0x1B; 0x5B; 0x4D] /\
  (6 <= List.length packet <= 15)%nat /\
  Forall (fun c => 0 <= c <= 255) packet.
Proof.
  intros S.
  assert (E : exists b x y, packet = Fmt.Sprintf_packet b x y).
  { destruct S as (g & E & Wr & _). unfold mouseButtonCallback in E.
    assert (N : Return gui = Return g -> False).
    { intros H. injection H as <-.
      apply (f_equal (@List.length _)) in Wr. rewrite length_app in Wr.
      cbn [List.length] in Wr. lia. }
    destruct (GetMouseMode gui); try discriminate; try (now apply N in E).
    - destruct (action =? Press); [| now apply N in E].
      destruct (GetCursorPos w) as [px py]. injection E as <-.
      cbn [Write written] in Wr. apply app_inv_head in Wr.
      injection Wr as <-. eauto.
    - destruct (vt200_button button action); [| now apply N in E].
      destruct (GetCursorPos w) as [px py]. injection E as <-.
      cbn [Write Infof_packet written] in Wr. apply app_inv_head in Wr.
      injection Wr as <-. eauto. }
  destruct E as (b & x & y & ->).
  destruct (fmtC_bytes b) as [Fb Lb].
  destruct (fmtC_bytes x) as [Fx Lx].
  destruct (fmtC_bytes y) as [Fy Ly].
  split; [reflexivity |]. split.
  - rewrite Sprintf_packet_length. lia.
  - unfold Fmt.Sprintf_packet. rewrite !Forall_app.
    repeat split; try assumption. repeat constructor; lia.
Qed.

Lemma packet_shape_witness :
  firstn 3 [0x1B; 0x5B; 0x4D; 0x20; 0xC2; 0x80; 0x22] = [0x1B; 0x5B; 0x4D] /\
  (6 <= List.length [0x1B; 0x5B; 0x4D; 0x20; 0xC2; 0x80; 0x22] <= 15)%nat /\
  Forall (fun c => 0 <= c <= 255) [0x1B; 0x5B; 0x4D; 0x20; 0xC2; 0x80; 0x22].
Proof.
  apply (packet_shape Float64.amd64 (gui_of MouseModeVT200 10 20)
           (window_at 955 25) MouseButton1 Press 0).
  eexists. split; [reflexivity |]. repeat split.
Defined.

(** X12. For every finite float64 value whose floor fits in an [int],
    [int(math.Floor(x))] is exactly the floor of the number [x] stands
    for. *)
Theorem floor_then_int_exact (u : Float64.float64 -> Z)
    (x : Float64.float64) :
  Float64.valid x = true -> Float64.is_finite x = true ->
  GoInt.MinInt64 <= Qfloor (Float64.to_Q x) <= GoInt.MaxInt64 ->
  Float64.to_int u (Float64.Floor x) = Qfloor (Float64.to_Q x).
Proof.
  intros V F R. apply to_int_Floor; [exact F | now apply valid_small | exact R].
Qed.

(** -7/2 floors to -4. *)
Lemma floor_then_int_exact_witness :
  Float64.to_int Float64.amd64
    (Float64.Floor (Float64.div (Float64.of_int (-7)) (Float64.of_int 2)))
  = -4.
Proof.
  apply (floor_then_int_exact Float64.amd64
           (Float64.div (Float64.of_int (-7)) (Float64.of_int 2)));
    vm_compute; try reflexivity; split; discriminate.
Defined.

(** X13. The conversion [rune(x + 32)] keeps the low 32 bits only: columns
    (or rows) that differ by a multiple of [2 ^ 32] are sent as the same
    character. *)
Theorem param_wraps (x k : Z) :
  Fmt.fmtC (param (x + k * 2 ^ 32)) = Fmt.fmtC (param x).
Proof.
  f_equal. unfold param, GoInt.rune, GoInt.int, GoInt.wrap_signed.
  f_equal.
  assert (D : forall z, (z - 2 ^ (64 - 1) + 2 ^ (32 - 1)) mod 2 ^ 32
                        = (z mod 2 ^ 64 - 2 ^ (64 - 1) + 2 ^ (32 - 1)) mod 2 ^ 32).
  { intros z. rewrite (Z.div_mod z (2 ^ 64)) at 1 by lia.
    replace (2 ^ 64 * (z / 2 ^ 64) + z mod 2 ^ 64 - 2 ^ (64 - 1) + 2 ^ (32 - 1))
      with (z mod 2 ^ 64 - 2 ^ (64 - 1) + 2 ^ (32 - 1)
            + (2 ^ 32 * (z / 2 ^ 64)) * 2 ^ 32) by lia.
    apply Z.mod_add. lia. }
  rewrite <- !D.
  replace (x + k * 2 ^ 32 + 32 + 2 ^ (64 - 1) - 2 ^ (64 - 1) + 2 ^ (32 - 1))
    with (x + 32 + 2 ^ (64 - 1) - 2 ^ (64 - 1) + 2 ^ (32 - 1) + k * 2 ^ 32)
    by lia.
  apply Z.mod_add. lia.
Qed.

(** X14. A reported event with an ASCII button code point and column and
    row from 1 to 95 sends exactly the six bytes ESC [ M, button, column +
    32, row + 32; in X10 mode the button byte of the buttons 1 to 8 is the
    button's index plus 32. *)
Theorem ascii_packet_six_bytes (u : Float64.float64 -> Z) (gui : GUI)
    (w : Window) (button action mods b : Z) (px py : Float64.float64)
    (c r : Z) :
  button_param gui button action mods = Some b ->
  GetCursorPos w = (px, py) ->
  cell u px (CellWidth gui) = c -> cell u py (CellHeight gui) = r ->
  0 <= b <= 127 -> 1 <= c <= 95 -> 1 <= r <= 95 ->
  sends u gui w button action mods [0x1B; 0x5B; 0x4D; b; c + 32; r + 32] /\
  (GetMouseMode gui = MouseModeX10 ->
   MouseButton1 <= button <= MouseButton8 -> b = button + 32).
Proof.
  intros Hb Hc Hx Hy Rb Rc Rr. split.
  - pose proof (callback_reports u gui w _ _ _ px py b Hc Hb) as S.
    rewrite Hx, Hy in S. rewrite !param_small in S by lia.
    rewrite Sprintf_packet_ascii_button in S by exact Rb.
    rewrite !fmtC_ascii in S by lia. exact S.
  - intros M. unfold button_param in Hb. rewrite M in Hb.
    unfold MouseButton1, MouseButton8. intros B.
    destruct (action =? Press); [| discriminate]. injection Hb as <-.
    rewrite (rune_small button) by lia. apply rune_small. lia.
Qed.

Lemma ascii_packet_six_bytes_witness :
  sends Float64.amd64 (gui_of MouseModeX10 10 20) (window_at 15 25)
    MouseButton3 Press ModShift [0x1B; 0x5B; 0x4D; 34; 34; 34].
Proof.
  apply (ascii_packet_six_bytes Float64.amd64 (gui_of MouseModeX10 10 20)
           (window_at 15 25) MouseButton3 Press ModShift 34
           (Float64.of_int 15) (Float64.of_int 25) 2 2);
    try reflexivity; lia.
Defined.

(** The three ways a call can return. *)
Lemma callback_outcomes (u : Float64.float64 -> Z) (gui gui' : GUI)
    (w : Window) (button action mods : Z) :
  mouseButtonCallback u gui w button action mods = Return gui' ->
  gui' = gui \/
  (exists p, gui' = Write gui p) \/
  (exists p, gui' = Write (Infof_packet gui p) p).
Proof.
  unfold mouseButtonCallback.
  destruct (GetMouseMode gui); try discriminate.
  - intros H. injection H as <-. now left.
  - destruct (action =? Press).
    + destruct (GetCursorPos w) as [px py]. intros H. injection H as <-.
      right. left. eexists. reflexivity.
    + intros H. injection H as <-. now left.
  - destruct (vt200_button button action).
    + destruct (GetCursorPos w) as [px py]. intros H. injection H as <-.
      right. right. eexists. reflexivity.
    + intros H. injection H as <-. now left.
Qed.

(** X15. A call that returns has handed at most one chunk to the terminal
    and at most one line to the log, after everything that was there; mode
    and cell metrics are untouched. *)
Theorem callback_appends_only (u : Float64.float64 -> Z) (gui gui' : GUI)
    (w : Window) (button action mods : Z) :
  mouseButtonCallback u gui w button action mods = Return gui' ->
  GetMouseMode gui' = GetMouseMode gui /\
  CellWidth gui' = CellWidth gui /\
  CellHeight gui' = CellHeight gui /\
  exists chunks lines,
    written gui' = written gui ++ chunks /\
    logged gui' = logged gui ++ lines /\
    (List.length lines <= List.length chunks <= 1)%nat.
Proof.
  intros H.
  destruct (callback_outcomes u gui gui' w button action mods H)
    as [-> | [[p ->] | [p ->]]];
    repeat split; cbn [Write Infof_packet written logged].
  - exists [], []. rewrite !app_nil_r. cbn. repeat split; lia.
  - exists [p], []. rewrite app_nil_r. cbn. repeat split; lia.
  - do 2 eexists. split; [reflexivity |]. split; [reflexivity |]. cbn. lia.
Qed.

Lemma callback_appends_only_witness :
  let gui := gui_of MouseModeX10 10 20 in
  let gui' := Write gui [0x1B; 0x5B; 0x4D; 0x20; 0x22; 0x22] in
  GetMouseMode gui' = GetMouseMode gui /\
  CellWidth gui' = CellWidth gui /\
  CellHeight gui' = CellHeight gui /\
  exists chunks lines,
    written gui' = written gui ++ chunks /\
    logged gui' = logged gui ++ lines /\
    (List.length lines <= List.length chunks <= 1)%nat.
Proof.
  apply (callback_appends_only Float64.amd64 (gui_of MouseModeX10 10 20)
           (Write (gui_of MouseModeX10 10 20) [0x1B; 0x5B; 0x4D; 0x20; 0x22; 0x22])
           (window_at 15 25) MouseButton1 Press 0).
  reflexivity.
Defined.
